(** * config-binder: the type-directed binding engine

    A shallow embedding of [config_binder/binder.py] (class [ConfigBinder]):
    the recursive engine that coerces parsed configuration data into the
    shape described by type annotations.

    Python values are an inductive type, exceptions are values of a result
    type, and every function of the engine is a Rocq function with the
    name it has in the source (the leading double underscore dropped). *)

From Stdlib Require Import ZArith List String Ascii Bool Lia.
From Stdlib Require Import Floats.SpecFloat.
From Stdlib Require Import DecimalString DecimalPos.
From Stdlib Require Import Sorting.Sorted.
Import ListNotations.

Set Implicit Arguments.
Set Warnings "-register-all".

Local Open Scope string_scope.
Local Open Scope list_scope.

(** ** Python data *)

(** The five classes of [primitive_types], in the order of that list. *)
Inductive prim : Type :=
| PBool | PInt | PFloat | PNoneType | PStr.

Definition prim_eqb (a b : prim) : bool :=
  match a, b with
  | PBool, PBool | PInt, PInt | PFloat, PFloat
  | PNoneType, PNoneType | PStr, PStr => true
  | _, _ => false
  end.

(** [primitive_types = [bool, int, float, NoneType, str]] *)
Definition primitive_types : list prim := [PBool; PInt; PFloat; PNoneType; PStr].

(** A Python [float] is an IEEE 754 binary64 number. *)
Definition pyfloat : Type := spec_float.

(** Values: what the parsers hand to the engine (None, booleans, numbers,
    strings, lists, string-keyed dicts) and what the engine builds (tuples,
    sets, instances).  A dict is an association list in insertion order; a
    set is kept as the list it was built from, the set's own treatment of
    duplicates and order being the [set] constructor's business. *)
Inductive value : Type :=
| VNone
| VBool (b : bool)
| VInt (z : Z)
| VFloat (f : pyfloat)
| VStr (s : string)
| VList (items : list value)
| VTuple (items : list value)
| VSet (items : list value)
| VDict (entries : list (string * value))
| VObj (class_name : string) (attrs : list (string * value)).

(** The arguments a [Literal[...]] may carry. *)
Inductive literal : Type :=
| LNone
| LBool (b : bool)
| LInt (z : Z)
| LStr (s : string).

(** Annotations: [field_type] in the source.  [TClass] is a class with
    annotations, i.e. what [get_type_hints] returns for it, in declaration
    order; [TDict], [TLiteral] and [TUnion] list their [__args__]. *)
Inductive ty : Type :=
| TPrim (p : prim)
| TClass (name : string) (type_hints : list (string * ty))
| TList (item_type : ty)
| TSet (item_type : ty)
| TTuple (item_types : list ty)
| TDict (key_type value_type : ty)
| TLiteral (args : list literal)
| TUnion (field_types : list ty).

(** ** Exceptions *)

(** The class of the engine's own exception and the classes the
    interpreter raises under it. *)
Inductive exn_kind : Type :=
| ValidationError
| TypeError
| ValueError
| AttributeError
| OverflowError
| SyntaxError
| RecursionError
| MemoryError.

(** Messages are kept as the f-string that builds them, with the
    interpolated objects in place of their rendering. *)
Inductive message : Type :=
| MBuiltin (text : string) (operands : list value)
    (* the text of an exception raised by the interpreter *)
| MCannotBindValue (field_data : value) (field_type : prim)
    (* f"Cannot bind value '{field_data}' to type '{field_type.__name__}'" *)
| MCannotBindLiteral (field_data : value) (args : list literal)
    (* f"Cannot bind '{field_data}' to Literal{field_type.__args__}" *)
| MCannotBindUnion (field_data : value) (field_types : list ty)
    (* f"Cannot bind '{field_data}' to Union{field_types}" *)
| MOnlyStrKeys (key_type : ty)
    (* f"Only str keys dicts supported; found Dict keys with type '{key_type.__name__}'" *)
| MFailedToBind (field_name : string) (cause : message)
    (* f"Failed to bind '{field_name}' field: {ex.__str__()}" *).

Record exn : Type := Exn { exn_class : exn_kind; exn_message : message }.

Inductive result (A : Type) : Type :=
| Ok (a : A)
| Raise (e : exn).

Arguments Ok {A} a.
Arguments Raise {A} e.

Definition bind_result {A B} (r : result A) (k : A -> result B) : result B :=
  match r with
  | Ok a => k a
  | Raise e => Raise e
  end.

Notation "x <- r ;; k" := (bind_result r (fun x => k))
  (at level 61, r at next level, right associativity).

Definition raise {A} (k : exn_kind) (m : message) : result A := Raise (Exn k m).

Definition is_ok {A} (r : result A) : bool :=
  match r with Ok _ => true | Raise _ => false end.

Definition raises {A} (r : result A) : Prop := exists e, r = Raise e.

(** [for x in xs: ... f(x) ...], stopping at the first exception. *)
Fixpoint map_result {A B} (f : A -> result B) (xs : list A) : result (list B) :=
  match xs with
  | [] => Ok []
  | x :: rest =>
      y <- f x ;;
      ys <- map_result f rest ;;
      Ok (y :: ys)
  end.

(** ** The interpreter's builtins

    [type], [isinstance], [str.lower], [float], [int], [str], iteration and
    [dict.get] are not code of the repository; they are modelled here on the
    values above, for ASCII text. *)

(** [type(v) is p] for a primitive class [p] *)
Definition type_is (v : value) (p : prim) : bool :=
  match v, p with
  | VNone, PNoneType | VBool _, PBool | VInt _, PInt
  | VFloat _, PFloat | VStr _, PStr => true
  | _, _ => false
  end.

(** [isinstance(v, bool)]; [bool] cannot be subclassed. *)
Definition isinstance_bool (v : value) : bool :=
  match v with VBool _ => true | _ => false end.

(** [type(v).__name__] *)
Definition type_name (v : value) : string :=
  match v with
  | VNone => "NoneType" | VBool _ => "bool" | VInt _ => "int"
  | VFloat _ => "float" | VStr _ => "str" | VList _ => "list"
  | VTuple _ => "tuple" | VSet _ => "set" | VDict _ => "dict"
  | VObj c _ => c
  end.

Definition ascii_code (c : ascii) : Z := Z.of_N (N_of_ascii c).

Definition lower_ascii (c : ascii) : ascii :=
  if ((65 <=? ascii_code c) && (ascii_code c <=? 90))%Z
  then ascii_of_N (N_of_ascii c + 32) else c.

(** [s.lower()] *)
Fixpoint lower (s : string) : string :=
  match s with
  | EmptyString => EmptyString
  | String c rest => String (lower_ascii c) (lower rest)
  end.

(** [str(z)] for an int *)
Definition str_of_int (z : Z) : string := NilZero.string_of_int (Z.to_int z).

(** [str(b)] for a bool *)
Definition str_of_bool (b : bool) : string := if b then "True" else "False".

Module PyFloat.
Local Open Scope Z_scope.

Definition prec : Z := 53.
Definition emax : Z := 1024.

(** The number [m * 10 ^ e] rounded to the nearest binary64, ties to
    even: what [float] does with the digits of a decimal string. *)
Definition of_decimal (neg : bool) (m e : Z) : pyfloat :=
  match m with
  | Zpos p =>
      if 0 <=? e
      then binary_normalize prec emax ((if neg then Zneg p else Zpos p) * 10 ^ e) 0 neg
      else
        let '(q, e', l) := SFdiv_core_binary prec emax (Zpos p) 0 (10 ^ (- e)) 0 in
        binary_round_aux prec emax neg q e' l
  | _ => S754_zero neg
  end.

(** [float(z)]: [None] stands for OverflowError. *)
Definition of_int (z : Z) : option pyfloat :=
  match binary_normalize prec emax z 0 false with
  | S754_infinity _ => None
  | f => Some f
  end.

Inductive truncation : Type :=
| Truncated (z : Z)
| TruncNaN
| TruncInfinity.

(** [int(f)]: rounds toward zero. *)
Definition trunc (f : pyfloat) : truncation :=
  match f with
  | S754_zero _ => Truncated 0
  | S754_infinity _ => TruncInfinity
  | S754_nan => TruncNaN
  | S754_finite s m e =>
      let a := if 0 <=? e then Z.shiftl (Zpos m) e else Z.shiftr (Zpos m) (- e) in
      Truncated (if s then - a else a)
  end.

(** [f == z] for a float and an int: exact comparison. *)
Definition eq_int (f : pyfloat) (z : Z) : bool :=
  match f with
  | S754_zero _ => z =? 0
  | S754_finite s m e =>
      let sm := if s then Zneg m else Zpos m in
      if 0 <=? e then z =? Z.shiftl sm e else Z.shiftl z (- e) =? sm
  | _ => false
  end.

(** *** The text [float] accepts *)

(** The blanks [float] strips from both ends of an ASCII string: tab,
    newline, vertical tab, form feed, carriage return and space.  The
    separators 0x1C-0x1F, which [str.strip] removes, are not among them. *)
Definition is_space (c : ascii) : bool :=
  let n := ascii_code c in
  ((9 <=? n) && (n <=? 13)) || (n =? 32).

Definition is_digit (c : ascii) : bool :=
  let n := ascii_code c in (48 <=? n) && (n <=? 57).

Definition digit (c : ascii) : Z := ascii_code c - 48.

Fixpoint lstrip (cs : list ascii) : list ascii :=
  match cs with
  | c :: rest => if is_space c then lstrip rest else cs
  | [] => []
  end.

Definition strip (cs : list ascii) : list ascii :=
  rev (lstrip (rev (lstrip cs))).

(** Digits, single underscores allowed between two digits: the value
    read so far, the number of digits, and what follows. *)
Fixpoint digits_loop (acc count : Z) (cs : list ascii) : Z * Z * list ascii :=
  match cs with
  | c :: rest =>
      if is_digit c then digits_loop (10 * acc + digit c) (count + 1) rest
      else if Ascii.eqb c "_" then
        match rest with
        | d :: rest' =>
            if is_digit d then digits_loop (10 * acc + digit d) (count + 1) rest'
            else (acc, count, cs)
        | [] => (acc, count, cs)
        end
      else (acc, count, cs)
  | [] => (acc, count, [])
  end.

Definition digitpart (cs : list ascii) : option (Z * Z * list ascii) :=
  match cs with
  | c :: _ => if is_digit c then Some (digits_loop 0 0 cs) else None
  | [] => None
  end.

Definition sign (cs : list ascii) : bool * list ascii :=
  match cs with
  | c :: rest =>
      if Ascii.eqb c "-" then (true, rest)
      else if Ascii.eqb c "+" then (false, rest)
      else (false, cs)
  | [] => (false, [])
  end.

Definition exponent (neg : bool) (m fd : Z) (cs : list ascii) : option pyfloat :=
  match cs with
  | [] => Some (of_decimal neg m (- fd))
  | c :: rest =>
      if Ascii.eqb (lower_ascii c) "e" then
        let '(eneg, rest') := sign rest in
        match digitpart rest' with
        | Some (x, _, []) => Some (of_decimal neg m ((if eneg then - x else x) - fd))
        | _ => None
        end
      else None
  end.

Definition decimal (neg : bool) (cs : list ascii) : option pyfloat :=
  match digitpart cs with
  | Some (i, _, after_int) =>
      match after_int with
      | c :: after_point =>
          if Ascii.eqb c "." then
            match digitpart after_point with
            | Some (f, fd, rest) => exponent neg (i * 10 ^ fd + f) fd rest
            | None => exponent neg i 0 after_point
            end
          else exponent neg i 0 after_int
      | [] => exponent neg i 0 []
      end
  | None =>
      match cs with
      | c :: after_point =>
          if Ascii.eqb c "." then
            match digitpart after_point with
            | Some (f, fd, rest) => exponent neg f fd rest
            | None => None
            end
          else None
      | [] => None
      end
  end.

(** [float(s)] for a string: [None] stands for ValueError. *)
Definition of_string (s : string) : option pyfloat :=
  let '(neg, cs) := sign (strip (list_ascii_of_string s)) in
  let word := string_of_list_ascii (List.map lower_ascii cs) in
  if String.eqb word "inf" || String.eqb word "infinity" then Some (S754_infinity neg)
  else if String.eqb word "nan" then Some S754_nan
  else decimal neg cs.
End PyFloat.

(** [for item in v]: the items an iteration yields; TypeError for a value
    that is not iterable.  A string yields its characters, a dict its keys. *)
Definition py_iter (v : value) : result (list value) :=
  match v with
  | VList items | VTuple items | VSet items => Ok items
  | VDict entries => Ok (List.map (fun kv => VStr (fst kv)) entries)
  | VStr s => Ok (List.map (fun c => VStr (String c EmptyString)) (list_ascii_of_string s))
  | _ => raise TypeError (MBuiltin "object is not iterable" [v])
  end.

Fixpoint lookup (key : string) (entries : list (string * value)) : option value :=
  match entries with
  | [] => None
  | (k, v) :: rest => if String.eqb k key then Some v else lookup key rest
  end.

(** [data.get(key)]: None when the key is absent, AttributeError when
    [data] is not a dict. *)
Definition dict_get (data : value) (key : string) : result value :=
  match data with
  | VDict entries =>
      match lookup key entries with
      | Some v => Ok v
      | None => Ok VNone
      end
  | _ => raise AttributeError (MBuiltin "object has no attribute 'get'" [data])
  end.

(** [data.items()] *)
Definition dict_items (data : value) : result (list (string * value)) :=
  match data with
  | VDict entries => Ok entries
  | _ => raise AttributeError (MBuiltin "object has no attribute 'items'" [data])
  end.

(** [float(v)] *)
Definition py_float (v : value) : result pyfloat :=
  match v with
  | VFloat f => Ok f
  | VInt z =>
      match PyFloat.of_int z with
      | Some f => Ok f
      | None => raise OverflowError (MBuiltin "int too large to convert to float" [])
      end
  | VBool b => Ok (if b then SFone PyFloat.prec PyFloat.emax else S754_zero false)
  | VStr s =>
      match PyFloat.of_string s with
      | Some f => Ok f
      | None => raise ValueError (MBuiltin "could not convert string to float" [v])
      end
  | _ => raise TypeError (MBuiltin "float() argument must be a string or a real number" [v])
  end.

(** [int(f)] for a float *)
Definition py_int (f : pyfloat) : result value :=
  match PyFloat.trunc f with
  | PyFloat.Truncated z => Ok (VInt z)
  | PyFloat.TruncNaN => raise ValueError (MBuiltin "cannot convert float NaN to integer" [])
  | PyFloat.TruncInfinity => raise OverflowError (MBuiltin "cannot convert float infinity to integer" [])
  end.

(** [type(possible_arg)] for an argument of a Literal *)
Definition type_of_literal (l : literal) : prim :=
  match l with
  | LNone => PNoneType | LBool _ => PBool | LInt _ => PInt | LStr _ => PStr
  end.

Definition Z_of_bool (b : bool) : Z := if b then 1%Z else 0%Z.

(** [v == possible_arg]: numbers compare by value whatever their class
    (so [True == 1]), everything else only within its own class. *)
Definition py_eq (v : value) (l : literal) : bool :=
  match v, l with
  | VNone, LNone => true
  | VBool a, LBool b => Bool.eqb a b
  | VBool a, LInt z => Z.eqb (Z_of_bool a) z
  | VInt z, LBool b => Z.eqb z (Z_of_bool b)
  | VInt a, LInt b => Z.eqb a b
  | VFloat f, LInt z => PyFloat.eq_int f z
  | VFloat f, LBool b => PyFloat.eq_int f (Z_of_bool b)
  | VStr a, LStr b => String.eqb a b
  | _, _ => false
  end.

(** What [ast.literal_eval(text) is None] comes to. *)
Inductive literal_eval_outcome : Type :=
| LiteralNone                 (* the text denotes None *)
| LiteralOther                (* the text denotes another constant *)
| LiteralRaises (e : exn)     (* the text is rejected *).

(** ** The engine *)

(** [field_type.__origin__] of a [List[...]] or [Set[...]] *)
Inductive origin : Type := OList | OSet.

(** [field_type.__origin__(items)].  The items are taken to be hashable,
    as primitive values and instances of plain classes are. *)
Definition construct (o : origin) (items : list value) : value :=
  match o with
  | OList => VList items
  | OSet => VSet items
  end.

(** [ft in primitive_types], with the class found *)
Definition as_primitive (ft : ty) : option prim :=
  match ft with
  | TPrim p => if existsb (prim_eqb p) primitive_types then Some p else None
  | _ => None
  end.

Definition in_primitive_types (ft : ty) : bool :=
  match as_primitive ft with Some _ => true | None => false end.

(** [primitive_types.index(t)] *)
Fixpoint index_in (t : prim) (l : list prim) : nat :=
  match l with
  | [] => 0
  | x :: rest => if prim_eqb x t then 0 else S (index_in t rest)
  end.

Definition priority (t : prim) : nat := index_in t primitive_types.

(** [sorted(l, key=key)]: a stable sort. *)
Fixpoint insert_sorted {A} (key : A -> nat) (x : A) (l : list A) : list A :=
  match l with
  | [] => [x]
  | y :: rest =>
      if (key x <=? key y)%nat then x :: y :: rest
      else y :: insert_sorted key x rest
  end.

Fixpoint sorted {A} (key : A -> nat) (l : list A) : list A :=
  match l with
  | [] => []
  | x :: rest => insert_sorted key x (sorted key rest)
  end.

(** [for x in xs: try: return f(x) except Exception: pass]: the first
    result that is not an exception, if any. *)
Fixpoint first_ok {A B} (f : A -> result B) (xs : list A) : option B :=
  match xs with
  | [] => None
  | x :: rest =>
      match f x with
      | Ok y => Some y
      | Raise _ => first_ok f rest
      end
  end.

(** [f(x, y) for x, y in zip(xs, ys)], evaluated in order. *)
Fixpoint zip_map_result {A B C} (f : A -> B -> result C)
    (xs : list A) (ys : list B) {struct ys} : result (list C) :=
  match ys with
  | [] => Ok []
  | y :: ys' =>
      match xs with
      | [] => Ok []
      | x :: xs' =>
          z <- f x y ;;
          zs <- zip_map_result f xs' ys' ;;
          Ok (z :: zs)
      end
  end.

(** [__if_custom_class]: a class with annotations that is neither an Enum
    nor Any. *)
Definition if_custom_class (clazz : ty) : bool :=
  match clazz with TClass _ _ => true | _ => false end.

(** [__if_collection]: [__origin__] is one of list, set, dict, tuple. *)
Definition if_collection (clazz : ty) : bool :=
  match clazz with
  | TList _ | TSet _ | TDict _ _ | TTuple _ => true
  | _ => false
  end.

(** [__if_literal] *)
Definition if_literal (clazz : ty) : bool :=
  match clazz with TLiteral _ => true | _ => false end.

(** [__if_union] *)
Definition if_union (clazz : ty) : bool :=
  match clazz with TUnion _ => true | _ => false end.

(** [key_type is not str] *)
Definition is_not_str (key_type : ty) : bool :=
  match key_type with TPrim PStr => false | _ => true end.

(** [str in field_types] *)
Definition str_in (field_types : list ty) : bool :=
  existsb (fun ft => negb (is_not_str ft)) field_types.

(** [except (TypeError, ValueError)] *)
Definition is_type_or_value_error (k : exn_kind) : bool :=
  match k with TypeError | ValueError => true | _ => false end.

Section Engine.

(** Two pieces of the interpreter stay parameters: [repr], the text
    [str] gives for floats, containers and instances, and the parser
    behind [ast.literal_eval]. *)
Variable repr : value -> string.
Variable literal_eval : string -> literal_eval_outcome.

(** [str(v)], taken to succeed on every value. *)
Definition py_str (v : value) : string :=
  match v with
  | VNone => "None"
  | VBool b => str_of_bool b
  | VInt z => str_of_int z
  | VStr s => s
  | _ => repr v
  end.

(** The body of the [try] of [__bind_simple_type] once the input is not
    of the requested class already: lines 214-227. *)
Definition coerce (field_data : value) (field_type : prim) : result value :=
  match field_type with
  | PInt =>
      f <- py_float field_data ;;
      py_int f
  | PBool =>
      match field_data with
      | VStr s =>
          if String.eqb (lower s) "true" then Ok (VBool true)
          else if String.eqb (lower s) "false" then Ok (VBool false)
          else raise ValueError (MBuiltin "" [])
      | _ => raise ValueError (MBuiltin "" [])
      end
  | PNoneType =>
      match literal_eval (py_str field_data) with
      | LiteralNone => Ok VNone
      | LiteralOther => raise TypeError (MBuiltin "NoneType takes no arguments" [])
      | LiteralRaises e => Raise e
      end
  | PFloat =>
      f <- py_float field_data ;;
      Ok (VFloat f)
  | PStr => Ok (VStr (py_str field_data))
  end.

(** [__bind_simple_type] *)
Definition bind_simple_type (field_data : value) (field_type : prim) : result value :=
  if type_is field_data field_type then Ok field_data
  else
    let field_data :=
      if isinstance_bool field_data then VStr (py_str field_data) else field_data in
    match coerce field_data field_type with
    | Ok v => Ok v
    | Raise ex =>
        if is_type_or_value_error (exn_class ex)
        then raise ValidationError (MCannotBindValue field_data field_type)
        else Raise ex
    end.

(** [__bind_literal], on [field_type.__args__] *)
Fixpoint try_literals (field_data : value) (args : list literal) : option value :=
  match args with
  | [] => None
  | possible_arg :: rest =>
      match bind_simple_type field_data (type_of_literal possible_arg) with
      | Ok bind =>
          if py_eq bind possible_arg then Some bind
          else try_literals field_data rest
      | Raise _ => try_literals field_data rest
      end
  end.

Definition bind_literal (field_data : value) (args : list literal) : result value :=
  match try_literals field_data args with
  | Some bind => Ok bind
  | None => raise ValidationError (MCannotBindLiteral field_data args)
  end.

(** The functions below call [__bind_class], which calls them: they are
    first written over the function they call back. *)
Section Recursion.
Variable bind_class : ty -> value -> result value.

(** [bind] *)
Definition bind_with (data : value) (clazz : ty) : result value :=
  match as_primitive clazz with
  | Some p => bind_simple_type data p
  | None => bind_class clazz data
  end.

(** [__bind_set_list], on [field_type.__origin__] and
    [field_type.__args__[0]] *)
Definition bind_set_list_with (field_data : value) (o : origin) (item_type : ty)
  : result value :=
  items <- py_iter field_data ;;
  bound <- map_result (fun item => bind_with item item_type) items ;;
  Ok (construct o bound).

(** [__bind_tuple], on [field_type.__args__] *)
Definition bind_tuple_with (field_data : value) (args : list ty) : result value :=
  items <- py_iter field_data ;;
  bound <- zip_map_result bind_with items args ;;
  Ok (VTuple bound).

(** [__bind_dict], on [field_type.__args__[0]] and [[1]] *)
Definition bind_dict_with (field_data : value) (key_type value_type : ty)
  : result value :=
  if is_not_str key_type then raise ValidationError (MOnlyStrKeys key_type)
  else if if_custom_class value_type then
    items <- dict_items field_data ;;
    bound <- map_result
               (fun kv => v <- bind_class value_type (snd kv) ;; Ok (fst kv, v))
               items ;;
    Ok (VDict bound)
  else Ok field_data.

(** The first loop of [__bind_union]: the alternatives that are not in
    [primitive_types], each tried as a class. *)
Fixpoint try_classes (field_data : value) (field_types : list ty) : option value :=
  match field_types with
  | [] => None
  | ft :: rest =>
      if in_primitive_types ft then try_classes field_data rest
      else
        match bind_class ft field_data with
        | Ok v => Some v
        | Raise _ => try_classes field_data rest
        end
  end.

(** [[ft for ft in field_types if ft in primitive_types]] *)
Definition primitive_fields_types (field_types : list ty) : list prim :=
  flat_map (fun ft => match as_primitive ft with Some p => [p] | None => [] end)
           field_types.

(** [__bind_union], on [field_type.__args__] *)
Definition bind_union_with (field_data : value) (field_types : list ty) : result value :=
  match try_classes field_data field_types with
  | Some v => Ok v
  | None =>
      match first_ok (bind_simple_type field_data)
                     (sorted priority (primitive_fields_types field_types)) with
      | Some v => Ok v
      | None =>
          if str_in field_types then Ok field_data
          else raise ValidationError (MCannotBindUnion field_data field_types)
      end
  end.

(** The body of the loop of [__bind_class], after [data.get]:
    lines 112-126.  The chain of tests [__if_custom_class],
    [__if_collection], [__if_literal], [__if_union] is a match: on [ty]
    at most one of them holds. *)
Definition bind_field_with (field_data : value) (field_type : ty) : result value :=
  match field_type with
  | TClass _ _ => bind_class field_type field_data
  | TList item_type => bind_set_list_with field_data OList item_type
  | TSet item_type => bind_set_list_with field_data OSet item_type
  | TTuple args => bind_tuple_with field_data args
  | TDict key_type value_type => bind_dict_with field_data key_type value_type
  | TLiteral args => bind_literal field_data args
  | TUnion field_types => bind_union_with field_data field_types
  | TPrim p => bind_simple_type field_data p
  end.

(** One turn of the loop of [__bind_class]: lines 110-128. *)
Definition bind_entry_with (data : value) (hint : string * ty)
  : result (string * value) :=
  let '(field_name, field_type) := hint in
  match (field_data <- dict_get data field_name ;;
         bind_field_with field_data field_type) with
  | Ok v => Ok (field_name, v)
  | Raise ex => raise ValidationError (MFailedToBind field_name (exn_message ex))
  end.
End Recursion.

(** [clazz()] for a class of [primitive_types] *)
Definition default_value (p : prim) : value :=
  match p with
  | PBool => VBool false | PInt => VInt 0 | PFloat => VFloat (S754_zero false)
  | PNoneType => VNone | PStr => VStr ""
  end.

(** [__bind_class].  [get_type_hints] gives the annotations of a class,
    nothing for a builtin class and TypeError for a [typing] form; the
    instance is built from [kw_fields], by the constructor or, when that
    raises TypeError or ValueError, attribute by attribute on a blank
    instance: either way an instance with these attributes. *)
Fixpoint bind_class (clazz : ty) (data : value) {struct clazz} : result value :=
  match clazz with
  | TClass name type_hints =>
      kw_fields <- map_result (bind_entry_with bind_class data) type_hints ;;
      Ok (VObj name kw_fields)
  | TPrim p => Ok (default_value p)
  | _ => raise TypeError (MBuiltin "is not a module, class, method, or function." [])
  end.

(** The functions of the source, closed over [__bind_class]. *)
Definition bind : value -> ty -> result value := bind_with bind_class.
Definition bind_set_list : value -> origin -> ty -> result value :=
  bind_set_list_with bind_class.
Definition bind_tuple : value -> list ty -> result value := bind_tuple_with bind_class.
Definition bind_dict : value -> ty -> ty -> result value := bind_dict_with bind_class.
Definition bind_union : value -> list ty -> result value := bind_union_with bind_class.
Definition bind_field : value -> ty -> result value := bind_field_with bind_class.
Definition bind_entry : value -> string * ty -> result (string * value) :=
  bind_entry_with bind_class.

End Engine.

(** ** A runtime for closed examples

    Every statement below holds for any [repr] and any parser.  Where an
    example needs a closed term, these two stand in: [literal_eval] is
    exact on the text of None, of the booleans and of integers in
    canonical decimal form and rejects everything else with ValueError;
    [repr] only names the class of what it is given. *)
Module Sample.
Definition repr (v : value) : string := "<" ++ type_name v ++ ">".

Definition is_int_text (s : string) : bool :=
  match NilZero.int_of_string s with
  | Some i => String.eqb (NilZero.string_of_int i) s
  | None => false
  end.

Definition literal_eval (s : string) : literal_eval_outcome :=
  if String.eqb s "None" then LiteralNone
  else if String.eqb s "True" || String.eqb s "False" || is_int_text s then LiteralOther
  else LiteralRaises (Exn ValueError (MBuiltin "malformed node or string" [VStr s])).

(** No class of the examples prints its attributes. *)
Definition prints_fields (class_name : string) : bool := false.
End Sample.

(** ** Words of the specification *)

(** [s] is [word] up to the case of its ASCII letters. *)
Definition upper_ascii (c : ascii) : ascii :=
  if ((97 <=? ascii_code c) && (ascii_code c <=? 122))%Z
  then ascii_of_N (N_of_ascii c - 32) else c.

Fixpoint ignoring_case (s word : string) : bool :=
  match s, word with
  | EmptyString, EmptyString => true
  | String c s', String d word' =>
      (Ascii.eqb c d || Ascii.eqb c (upper_ascii d)) && ignoring_case s' word'
  | _, _ => false
  end.

(** The 256 characters, to settle facts on characters by enumeration. *)
Definition all_ascii : list ascii := List.map ascii_of_nat (seq 0 256).

Definition is_lower_letter (c : ascii) : bool :=
  ((97 <=? ascii_code c) && (ascii_code c <=? 122))%Z.

Fixpoint lowercase_word (w : string) : bool :=
  match w with
  | EmptyString => true
  | String c rest => is_lower_letter c && lowercase_word rest
  end.

(** A candidate of a Literal matches when the input, coerced to the
    candidate's class, equals the candidate. *)
Definition literal_matches (repr : value -> string)
    (literal_eval : string -> literal_eval_outcome)
    (data : value) (candidate : literal) : bool :=
  match bind_simple_type repr literal_eval data (type_of_literal candidate) with
  | Ok v => py_eq v candidate
  | Raise _ => false
  end.

(** The primitive class [p] is among the alternatives of a Union. *)
Definition declared (p : prim) (field_types : list ty) : bool :=
  existsb (fun ft => match ft with TPrim q => prim_eqb q p | _ => false end) field_types.

(** An alternative that is not primitive and binds as a class. *)
Definition binds_as_class (repr : value -> string)
    (literal_eval : string -> literal_eval_outcome)
    (data : value) (ft : ty) : bool :=
  negb (in_primitive_types ft) && is_ok (bind_class repr literal_eval ft data).

(** A declared primitive alternative that coerces. *)
Definition binds_as_primitive (repr : value -> string)
    (literal_eval : string -> literal_eval_outcome)
    (data : value) (field_types : list ty) (p : prim) : bool :=
  declared p field_types && is_ok (bind_simple_type repr literal_eval data p).

(** The entries of a dict whose keys are annotated in the class. *)
Definition declared_entries (type_hints : list (string * ty))
    (entries : list (string * value)) : list (string * value) :=
  filter (fun entry => existsb (String.eqb (fst entry)) (List.map fst type_hints)) entries.

(** ** The fixtures of [binder_test.py] *)

(** [data_template(val)] *)
Definition data_template (val : value) : value := VDict [("field", val)].

(** A test class with the one annotation [field: t]. *)
Definition test_config (t : ty) : ty := TClass "TestConfig" [("field", t)].

(** The instance a test expects, with [field] set. *)
Definition with_field (val : value) : result value :=
  Ok (VObj "TestConfig" [("field", val)]).

(** [ConfigBinder.bind] under the sample runtime. *)
Definition sample_bind : value -> ty -> result value :=
  bind Sample.repr Sample.literal_eval.

(** [pytest.raises(ValidationError)] *)
Definition raises_validation_error (r : result value) : bool :=
  match r with
  | Raise (Exn ValidationError _) => true
  | _ => false
  end.

(** The float a literal of the test file denotes. *)
Definition float_literal (text : string) : value :=
  match PyFloat.of_string text with
  | Some f => VFloat f
  | None => VNone
  end.

(** ** Further words *)


(** The Python value an argument of a Literal is. *)
Definition value_of_literal (l : literal) : value :=
  match l with
  | LNone => VNone
  | LBool b => VBool b
  | LInt z => VInt z
  | LStr s => VStr s
  end.

(** ** The limit on the digits of an int

    Since Python 3.11, [str], [repr] and f-strings refuse an int of more
    than [sys.get_int_max_str_digits()] decimal digits with ValueError; the
    limit is 4300 unless it is set otherwise, and 0 switches it off.  The
    engine above is the engine of an interpreter without that limit.
    [Limited] is the engine with it: the same functions, line by line,
    with [render] wherever the source turns its input into text, that is
    [str(field_data)] in [__bind_simple_type] and the f-strings of the
    three messages that show the input. *)
Module Limited.
Section Engine.
Variable max_str_digits : nat.

(** How the instances of a class print: with their attributes, as the
    [__repr__] that [@dataclass] writes does, or as the class and an
    address, as [object.__repr__] does. *)
Variable prints_fields : string -> bool.

Variable repr : value -> string.
Variable literal_eval : string -> literal_eval_outcome.

(** An int of more decimal digits than the limit allows. *)
Definition int_too_long (z : Z) : bool :=
  (0 <? max_str_digits)%nat && (10 ^ Z.of_nat max_str_digits <=? Z.abs z)%Z.

(** The values [str] refuses: such an int, and whatever prints one, a
    list, tuple, set or dict that holds it or an instance that prints its
    attributes. *)
Fixpoint unprintable (v : value) : bool :=
  match v with
  | VInt z => int_too_long z
  | VList items | VTuple items | VSet items => existsb unprintable items
  | VDict entries => existsb (fun kv => unprintable (snd kv)) entries
  | VObj class_name attrs =>
      prints_fields class_name && existsb (fun kv => unprintable (snd kv)) attrs
  | _ => false
  end.

(** The ValueError of the limit. *)
Definition limit_exceeded : exn :=
  Exn ValueError (MBuiltin "Exceeds the limit for integer string conversion" []).

(** [str(v)], and [{v}] in an f-string *)
Definition render (v : value) : result string :=
  if unprintable v then Raise limit_exceeded else Ok (py_str repr v).

(** Lines 214-227 of [__bind_simple_type]. *)
Definition coerce (field_data : value) (field_type : prim) : result value :=
  match field_type with
  | PInt =>
      f <- py_float field_data ;;
      py_int f
  | PBool =>
      match field_data with
      | VStr s =>
          if String.eqb (lower s) "true" then Ok (VBool true)
          else if String.eqb (lower s) "false" then Ok (VBool false)
          else raise ValueError (MBuiltin "" [])
      | _ => raise ValueError (MBuiltin "" [])
      end
  | PNoneType =>
      text <- render field_data ;;
      match literal_eval text with
      | LiteralNone => Ok VNone
      | LiteralOther => raise TypeError (MBuiltin "NoneType takes no arguments" [])
      | LiteralRaises e => Raise e
      end
  | PFloat =>
      f <- py_float field_data ;;
      Ok (VFloat f)
  | PStr =>
      text <- render field_data ;;
      Ok (VStr text)
  end.

(** [__bind_simple_type].  The handler builds its message before it
    raises: when the f-string cannot show [field_data], the ValueError of
    the limit gets out in place of the ValidationError. *)
Definition bind_simple_type (field_data : value) (field_type : prim) : result value :=
  if type_is field_data field_type then Ok field_data
  else
    let field_data :=
      if isinstance_bool field_data then VStr (py_str repr field_data) else field_data in
    match coerce field_data field_type with
    | Ok v => Ok v
    | Raise ex =>
        if is_type_or_value_error (exn_class ex)
        then
          shown <- render field_data ;;
          raise ValidationError (MCannotBindValue field_data field_type)
        else Raise ex
    end.

(** [__bind_literal], on [field_type.__args__]; the message shows the
    input and the tuple of the arguments. *)
Fixpoint try_literals (field_data : value) (args : list literal) : option value :=
  match args with
  | [] => None
  | possible_arg :: rest =>
      match bind_simple_type field_data (type_of_literal possible_arg) with
      | Ok bind =>
          if py_eq bind possible_arg then Some bind
          else try_literals field_data rest
      | Raise _ => try_literals field_data rest
      end
  end.

Definition bind_literal (field_data : value) (args : list literal) : result value :=
  match try_literals field_data args with
  | Some bind => Ok bind
  | None =>
      shown <- render field_data ;;
      shown_args <- render (VTuple (List.map value_of_literal args)) ;;
      raise ValidationError (MCannotBindLiteral field_data args)
  end.

Section Recursion.
Variable bind_class : ty -> value -> result value.

(** [bind] *)
Definition bind_with (data : value) (clazz : ty) : result value :=
  match as_primitive clazz with
  | Some p => bind_simple_type data p
  | None => bind_class clazz data
  end.

(** [__bind_set_list] *)
Definition bind_set_list_with (field_data : value) (o : origin) (item_type : ty)
  : result value :=
  items <- py_iter field_data ;;
  bound <- map_result (fun item => bind_with item item_type) items ;;
  Ok (construct o bound).

(** [__bind_tuple] *)
Definition bind_tuple_with (field_data : value) (args : list ty) : result value :=
  items <- py_iter field_data ;;
  bound <- zip_map_result bind_with items args ;;
  Ok (VTuple bound).

(** [__bind_union]: both loops let every exception pass, the one of the
    limit too; the message of the last line shows the input. *)
Definition bind_union_with (field_data : value) (field_types : list ty) : result value :=
  match try_classes bind_class field_data field_types with
  | Some v => Ok v
  | None =>
      match first_ok (bind_simple_type field_data)
                     (sorted priority (primitive_fields_types field_types)) with
      | Some v => Ok v
      | None =>
          if str_in field_types then Ok field_data
          else
            shown <- render field_data ;;
            raise ValidationError (MCannotBindUnion field_data field_types)
      end
  end.

(** Lines 112-126 of [__bind_class]; [__bind_dict] turns nothing into
    text and is the function of the engine above. *)
Definition bind_field_with (field_data : value) (field_type : ty) : result value :=
  match field_type with
  | TClass _ _ => bind_class field_type field_data
  | TList item_type => bind_set_list_with field_data OList item_type
  | TSet item_type => bind_set_list_with field_data OSet item_type
  | TTuple args => bind_tuple_with field_data args
  | TDict key_type value_type => bind_dict_with bind_class field_data key_type value_type
  | TLiteral args => bind_literal field_data args
  | TUnion field_types => bind_union_with field_data field_types
  | TPrim p => bind_simple_type field_data p
  end.

(** One turn of the loop of [__bind_class]: the message of the wrapper
    shows the field name and the text of the exception, never the input. *)
Definition bind_entry_with (data : value) (hint : string * ty)
  : result (string * value) :=
  let '(field_name, field_type) := hint in
  match (field_data <- dict_get data field_name ;;
         bind_field_with field_data field_type) with
  | Ok v => Ok (field_name, v)
  | Raise ex => raise ValidationError (MFailedToBind field_name (exn_message ex))
  end.
End Recursion.

(** [__bind_class] *)
Fixpoint bind_class (clazz : ty) (data : value) {struct clazz} : result value :=
  match clazz with
  | TClass name type_hints =>
      kw_fields <- map_result (bind_entry_with bind_class data) type_hints ;;
      Ok (VObj name kw_fields)
  | TPrim p => Ok (default_value p)
  | _ => raise TypeError (MBuiltin "is not a module, class, method, or function." [])
  end.

Definition bind : value -> ty -> result value := bind_with bind_class.
Definition bind_set_list : value -> origin -> ty -> result value :=
  bind_set_list_with bind_class.
Definition bind_tuple : value -> list ty -> result value := bind_tuple_with bind_class.
Definition bind_dict : value -> ty -> ty -> result value := bind_dict_with bind_class.
Definition bind_union : value -> list ty -> result value := bind_union_with bind_class.
Definition bind_field : value -> ty -> result value := bind_field_with bind_class.
Definition bind_entry : value -> string * ty -> result (string * value) :=
  bind_entry_with bind_class.

(** An alternative that is not primitive and binds as a class. *)
Definition binds_as_class (data : value) (ft : ty) : bool :=
  negb (in_primitive_types ft) && is_ok (bind_class ft data).

(** A declared primitive alternative that coerces. *)
Definition binds_as_primitive (data : value) (field_types : list ty) (p : prim) : bool :=
  declared p field_types && is_ok (bind_simple_type data p).

(** An annotation none of whose Literal arguments is an int beyond the
    limit. *)
Fixpoint literals_printable (clazz : ty) : bool :=
  match clazz with
  | TPrim _ => true
  | TClass _ type_hints => forallb (fun hint => literals_printable (snd hint)) type_hints
  | TList item_type | TSet item_type => literals_printable item_type
  | TTuple item_types => forallb literals_printable item_types
  | TDict key_type value_type => literals_printable key_type && literals_printable value_type
  | TLiteral args => negb (unprintable (VTuple (List.map value_of_literal args)))
  | TUnion field_types => forallb literals_printable field_types
  end.
End Engine.
End Limited.

(** The limit of an interpreter that was not told otherwise. *)
Definition default_max_str_digits : nat := 4300.

(** The least int the default limit refuses: 1 followed by 4300 zeros. *)
Definition ten_to_4300 : Z := (10 ^ 4300)%Z.

(** ** Loading *)

(** [class ConfigType(Enum)], members in definition order *)
Inductive ConfigType : Type := yaml | json.

(** [config_type.value] *)
Definition config_type_value (config_type : ConfigType) : list string :=
  match config_type with
  | yaml => [".yaml"; ".yml"]
  | json => [".json"]
  end.

(** [for config_type in cls] *)
Definition config_types : list ConfigType := [yaml; json].

(** The ValueErrors of the loading functions, by the f-string that
    builds them. *)
Inductive load_message : Type :=
| MUnsupportedExtension (extension : string) (supported : list (list string))
    (* f'Unsupported type extension: {extension}, supported types: {[ct.value for ct in cls]}' *)
| MDataIsEmpty
    (* f'{ERROR_MSG}, data is empty' *)
| MParsingError (cause : message)
    (* f'{ERROR_MSG}, parsing error occurred: {str(ex)}' *)
| MUnableToResolve (variable : string)
    (* f'unable to resolve placeholder {variable}' *).

(** What a loading function comes to: a value, one of its own
    ValueErrors, or an exception of the binding. *)
Inductive loaded (A : Type) : Type :=
| Loaded (a : A)
| LoadValueError (m : load_message)
| LoadRaise (e : exn).

Arguments Loaded {A} a.
Arguments LoadValueError {A} m.
Arguments LoadRaise {A} e.

(** [extension in config_type.value] *)
Definition has_extension (extension : string) (config_type : ConfigType) : bool :=
  existsb (String.eqb extension) (config_type_value config_type).

(** [ConfigType.of_extension] *)
Definition of_extension (extension : string) : loaded ConfigType :=
  match find (has_extension extension) config_types with
  | Some config_type => Loaded config_type
  | None =>
      LoadValueError
        (MUnsupportedExtension extension (List.map config_type_value config_types))
  end.

(** [ConfigBinder.read], over the two parsers, which are libraries:
    [parse config_type data] is what [__parse_yaml] or [__parse_json]
    returns or raises on [data].  [class_to_bind] is None or a class. *)
Definition read (repr : value -> string) (literal_eval : string -> literal_eval_outcome)
    (parse : ConfigType -> string -> result value)
    (config_type : ConfigType) (data : string) (class_to_bind : option ty)
  : loaded value :=
  if String.eqb data "" then LoadValueError MDataIsEmpty
  else
    match parse config_type data with
    | Raise ex => LoadValueError (MParsingError (exn_message ex))
    | Ok parsed =>
        match class_to_bind with
        | None => Loaded parsed
        | Some clazz =>
            match bind repr literal_eval parsed clazz with
            | Ok bound => Loaded bound
            | Raise ex => LoadRaise ex
            end
        end
    end.

(** ** Environment variables

    [__constructor] resolves the placeholders of a YAML scalar.  The
    pattern [ENV_VARIABLE_REGEX] is kept as the sequence of its elements,
    matched as the [re] module does: by backtracking, a lazy repetition
    trying the shortest run first, a greedy one and an optional element
    the longest. *)

Inductive regex_item : Type :=
| RChar (c : ascii)                     (* a character *)
| RLazyAny                              (* .*? *)
| RGroupPlus (cls : ascii -> bool)      (* ([...]+) *)
| RGroupOptChar (c : ascii)             (* (c?) *)
| RGroupOptPlus (cls : ascii -> bool)   (* ([...]+)? *).

(** What [.] leaves out *)
Definition is_newline (c : ascii) : bool := Ascii.eqb c "010".

(** [[^{:}]] *)
Definition name_char (c : ascii) : bool :=
  negb (Ascii.eqb c "{" || Ascii.eqb c ":" || Ascii.eqb c "}").

(** [[^}]] *)
Definition default_char (c : ascii) : bool := negb (Ascii.eqb c "}").

(** [ENV_VARIABLE_REGEX = re.compile(r'.*?\$\{([^{:}]+)(:?)([^}]+)?}.*?')] *)
Definition ENV_VARIABLE_REGEX : list regex_item :=
  [RLazyAny; RChar "$"; RChar "{"; RGroupPlus name_char; RGroupOptChar ":";
   RGroupOptPlus default_char; RChar "}"; RLazyAny].

Section Backtracking.
Variable R : Type.

(** [.*?] before the rest [k] of the pattern *)
Fixpoint lazy_any (k : string -> option R) (s : string) : option R :=
  match k s with
  | Some r => Some r
  | None =>
      match s with
      | String c s' => if is_newline c then None else lazy_any k s'
      | EmptyString => None
      end
  end.

(** [[...]+] in a group before the rest [k] of the pattern, [taken] being
    what the group holds so far *)
Fixpoint greedy_plus (cls : ascii -> bool) (k : string -> string -> option R)
    (taken : string) (s : string) : option R :=
  match s with
  | String c s' =>
      if cls c then
        match greedy_plus cls k (taken ++ String c EmptyString)%string s' with
        | Some r => Some r
        | None => k (taken ++ String c EmptyString)%string s'
        end
      else None
  | EmptyString => None
  end.
End Backtracking.

(** A match of the pattern at the start of [s]: the groups and what is
    left of [s] after the match. *)
Fixpoint regex_match (items : list regex_item) (groups : list string) (s : string)
    {struct items} : option (list string * string) :=
  match items with
  | [] => Some (groups, s)
  | RChar c :: rest =>
      match s with
      | String c' s' => if Ascii.eqb c c' then regex_match rest groups s' else None
      | EmptyString => None
      end
  | RLazyAny :: rest => lazy_any (regex_match rest groups) s
  | RGroupPlus cls :: rest =>
      greedy_plus cls (fun text s' => regex_match rest (groups ++ [text]) s')
                  EmptyString s
  | RGroupOptChar c :: rest =>
      match
        match s with
        | String c' s' =>
            if Ascii.eqb c c'
            then regex_match rest (groups ++ [String c EmptyString]) s'
            else None
        | EmptyString => None
        end
      with
      | Some r => Some r
      | None => regex_match rest (groups ++ [EmptyString]) s
      end
  | RGroupOptPlus cls :: rest =>
      match greedy_plus cls (fun text s' => regex_match rest (groups ++ [text]) s')
                        EmptyString s with
      | Some r => Some r
      | None => regex_match rest (groups ++ [EmptyString]) s
      end
  end.

(** [ENV_VARIABLE_REGEX.findall(s)]: the groups of the successive matches,
    each searched from the end of the one before.  [skip] counts the
    characters of the last match still to pass. *)
Fixpoint findall_from (skip : nat) (s : string) : list (list string) :=
  match skip with
  | S k =>
      match s with
      | String _ s' => findall_from k s'
      | EmptyString => []
      end
  | O =>
      match regex_match ENV_VARIABLE_REGEX [] s with
      | Some (groups, rest) =>
          groups ::
          match s with
          | String _ s' => findall_from (String.length s - String.length rest - 1) s'
          | EmptyString => []
          end
      | None =>
          match s with
          | String _ s' => findall_from 0 s'
          | EmptyString => []
          end
      end
  end.

Definition findall (s : string) : list (list string) := findall_from 0 s.

(** [c in s] for a character *)
Fixpoint contains (c : ascii) (s : string) : bool :=
  match s with
  | EmptyString => false
  | String c' s' => Ascii.eqb c c' || contains c s'
  end.

(** [s.replace(old, new)]: every occurrence of [old] met from the left,
    none overlapping the one before.  [skip] counts the characters of the
    last occurrence still to pass. *)
Fixpoint replace_from (old new : string) (skip : nat) (s : string) : string :=
  match s with
  | EmptyString => if Nat.eqb skip 0 && String.eqb old EmptyString then new else EmptyString
  | String c s' =>
      match skip with
      | S k => replace_from old new k s'
      | O =>
          if String.prefix old s then
            match String.length old with
            | O => (new ++ String c (replace_from old new 0 s'))%string
            | S n => (new ++ replace_from old new n s')%string
            end
          else String c (replace_from old new 0 s')
      end
  end.

Definition replace (old new s : string) : string := replace_from old new 0 s.

(** [os.environ.get(variable, default_value)] *)
Definition environ_get (environ : string -> option string)
    (variable default_value : string) : string :=
  match environ variable with
  | Some value => value
  | None => default_value
  end.

(** [f'${{{variable}{separator}{default_value}}}'] *)
Definition placeholder (variable separator default_value : string) : string :=
  ("${" ++ variable ++ separator ++ default_value ++ "}")%string.

(** The loop of [__constructor] over what [findall] found. *)
Fixpoint resolve (environ : string -> option string) (found : list (list string))
    (to_resolve : string) : loaded string :=
  match found with
  | [] => Loaded to_resolve
  | groups :: rest =>
      let variable := nth 0 groups EmptyString in
      let separator := nth 1 groups EmptyString in
      let default_value := nth 2 groups EmptyString in
      let value := environ_get environ variable default_value in
      if String.eqb value EmptyString && negb (contains ":" to_resolve)
      then LoadValueError (MUnableToResolve variable)
      else resolve environ rest
             (replace (placeholder variable separator default_value) value to_resolve)
  end.

(** [__constructor], on the scalar [loader.construct_scalar(node)]
    returns and the environment of the process. *)
Definition constructor (environ : string -> option string) (to_resolve : string)
  : loaded string :=
  resolve environ (findall to_resolve) to_resolve.

(** Every character of [s] is in the class [cls]. *)
Fixpoint all_chars (cls : ascii -> bool) (s : string) : bool :=
  match s with
  | EmptyString => true
  | String c s' => cls c && all_chars cls s'
  end.

(** [s] is empty or starts with a character outside [cls]. *)
Definition starts_outside (cls : ascii -> bool) (s : string) : bool :=
  match s with
  | EmptyString => true
  | String c _ => negb (cls c)
  end.

(** The number a sequence of decimal digits denotes after the digits
    read so far, which stand for [acc]. *)
Fixpoint uint_value (d : Decimal.uint) (acc : Z) : Z :=
  match d with
  | Decimal.Nil => acc
  | Decimal.D0 l => uint_value l (10 * acc + 0)
  | Decimal.D1 l => uint_value l (10 * acc + 1)
  | Decimal.D2 l => uint_value l (10 * acc + 2)
  | Decimal.D3 l => uint_value l (10 * acc + 3)
  | Decimal.D4 l => uint_value l (10 * acc + 4)
  | Decimal.D5 l => uint_value l (10 * acc + 5)
  | Decimal.D6 l => uint_value l (10 * acc + 6)
  | Decimal.D7 l => uint_value l (10 * acc + 7)
  | Decimal.D8 l => uint_value l (10 * acc + 8)
  | Decimal.D9 l => uint_value l (10 * acc + 9)
  end%Z.

(** The characters of a sequence of decimal digits. *)
Definition digits_of (d : Decimal.uint) : list ascii :=
  list_ascii_of_string (NilEmpty.string_of_uint d).

(** * Properties *)

Create HintDb binder.

Lemma prim_eqb_eq a b : prim_eqb a b = true <-> a = b.
Proof. destruct a, b; simpl; split; congruence. Qed.

Lemma prim_eqb_refl a : prim_eqb a a = true.
Proof. now destruct a. Qed.

(** The tests of the dispatch exclude one another. *)
Lemma dispatch_exclusive ft :
  (if_custom_class ft, if_collection ft, if_literal ft, if_union ft) =
    match ft with
    | TClass _ _ => (true, false, false, false)
    | TList _ | TSet _ | TTuple _ | TDict _ _ => (false, true, false, false)
    | TLiteral _ => (false, false, true, false)
    | TUnion _ => (false, false, false, true)
    | TPrim _ => (false, false, false, false)
    end.
Proof. now destruct ft. Qed.

(** ** Loops *)

Lemma not_raises_ok {A} (a : A) : ~ raises (Ok a).
Proof. intros [e H]; discriminate. Qed.

Lemma raises_Raise {A} (e : exn) : raises (@Raise A e).
Proof. now exists e. Qed.

#[local] Hint Resolve raises_Raise : binder.

Lemma map_result_ok {A B} (f : A -> result B) xs ys :
  map_result f xs = Ok ys <-> Forall2 (fun x y => f x = Ok y) xs ys.
Proof.
  revert ys; induction xs as [|x xs IH]; intros ys; simpl.
  - split.
    + intros H; injection H as <-; constructor.
    + intros H; inversion H; reflexivity.
  - destruct (f x) as [y|e] eqn:Hx; simpl.
    + destruct (map_result f xs) as [ys'|e] eqn:Hxs; simpl.
      * split.
        -- intros H; injection H as <-. constructor; [assumption|]. now apply IH.
        -- intros H; inversion H as [|? y' ? ys'' Hy Hys]; subst.
           rewrite Hx in Hy; injection Hy as <-.
           apply IH in Hys. now injection Hys as <-.
      * split; [discriminate|].
        intros H; inversion H as [|? y' ? ys'' Hy Hys]; subst.
        apply IH in Hys; discriminate.
    + split; [discriminate|].
      intros H; inversion H as [|? y' ? ys'' Hy Hys]; subst.
      rewrite Hx in Hy; discriminate.
Qed.

(** The first element that raises ends the loop with its own exception. *)
Lemma map_result_raise {A B} (f : A -> result B) before x after e :
  Forall (fun a => is_ok (f a) = true) before ->
  f x = Raise e ->
  map_result f (before ++ x :: after) = Raise e.
Proof.
  intros Hb Hx; induction Hb as [|a before Ha _ IH]; simpl.
  - now rewrite Hx.
  - destruct (f a); [simpl|discriminate]. now rewrite IH.
Qed.

(** A loop that raises does so at some element, all earlier ones done. *)
Lemma map_result_raise_inv {A B} (f : A -> result B) xs e :
  map_result f xs = Raise e ->
  exists before x after,
    xs = before ++ x :: after /\
    Forall (fun a => is_ok (f a) = true) before /\ f x = Raise e.
Proof.
  induction xs as [|a xs IH]; simpl; [discriminate|].
  destruct (f a) as [y|e'] eqn:Ha; simpl.
  - destruct (map_result f xs) as [ys|e''] eqn:Hxs; simpl; [discriminate|].
    intros H; injection H as ->.
    destruct (IH eq_refl) as (before & x & after & -> & Hb & Hx).
    exists (a :: before), x, after; repeat split; auto.
    constructor; [now rewrite Ha|assumption].
  - intros H; injection H as ->.
    exists [], a, xs; repeat split; auto.
Qed.

Lemma map_result_ext {A B} (f g : A -> result B) xs :
  (forall x, In x xs -> f x = g x) -> map_result f xs = map_result g xs.
Proof.
  induction xs as [|x xs IH]; simpl; intros H; [reflexivity|].
  rewrite (H x (or_introl eq_refl)), IH; auto.
Qed.

(** [zip_map_result] is the loop over [zip]. *)
Lemma zip_map_result_combine {A B C} (f : A -> B -> result C) xs ys :
  zip_map_result f xs ys = map_result (fun xy => f (fst xy) (snd xy)) (combine xs ys).
Proof.
  revert xs; induction ys as [|y ys IH]; intros [|x xs]; simpl; try reflexivity.
  now rewrite IH.
Qed.

Lemma first_ok_none {A B} (f : A -> result B) xs :
  first_ok f xs = None <-> Forall (fun x => raises (f x)) xs.
Proof.
  induction xs as [|x xs IH]; simpl.
  - split; auto.
  - destruct (f x) as [y|e] eqn:Hx.
    + split; [discriminate|]. intros H; inversion H as [|? ? Hr _]; subst.
      rewrite Hx in Hr. now apply not_raises_ok in Hr.
    + rewrite IH. split.
      * intros H; constructor; [rewrite Hx; auto with binder|assumption].
      * intros H; now inversion H.
Qed.

(** ** [sorted] *)

Section Sorted.
Context {A : Type} (key : A -> nat).

Let le_key (a b : A) : Prop := (key a <= key b)%nat.

Lemma insert_sorted_In x y l : In y (insert_sorted key x l) <-> y = x \/ In y l.
Proof.
  induction l as [|z l IH]; simpl.
  - intuition congruence.
  - destruct (key x <=? key z)%nat; simpl; [intuition congruence|].
    rewrite IH; intuition congruence.
Qed.

Lemma sorted_In y l : In y (sorted key l) <-> In y l.
Proof.
  induction l as [|x l IH]; simpl; [tauto|].
  rewrite insert_sorted_In, IH; intuition congruence.
Qed.

Lemma insert_sorted_sorted x l :
  StronglySorted le_key l -> StronglySorted le_key (insert_sorted key x l).
Proof.
  induction 1 as [|z l Hl IH Hz]; simpl.
  - repeat constructor.
  - destruct (key x <=? key z)%nat eqn:Hle.
    + apply Nat.leb_le in Hle. constructor; [now constructor|].
      constructor; [exact Hle|].
      eapply Forall_impl; [|exact Hz]. unfold le_key; intros; lia.
    + apply Nat.leb_gt in Hle. constructor; [assumption|].
      apply Forall_forall; intros y Hy. apply insert_sorted_In in Hy.
      destruct Hy as [->|Hy]; [unfold le_key; lia|].
      rewrite Forall_forall in Hz; auto.
Qed.

Lemma sorted_sorted l : StronglySorted le_key (sorted key l).
Proof.
  induction l; simpl; [constructor|now apply insert_sorted_sorted].
Qed.

(** In a list in key order, the loop that keeps the first success
    returns the result of [p] when everything of a smaller key raises
    and [p] is alone with its key. *)
Lemma first_ok_sorted {B} (f : A -> result B) l p v :
  StronglySorted le_key l ->
  In p l -> f p = Ok v ->
  (forall q, In q l -> (key q < key p)%nat -> raises (f q)) ->
  (forall q, In q l -> key q = key p -> q = p) ->
  first_ok f l = Some v.
Proof.
  induction 1 as [|x l Hl IH Hx]; intros Hin Hp Hlt Heq; [destruct Hin|].
  simpl. destruct (f x) as [y|e] eqn:Hfx.
  - assert (Hxp : x = p).
    { apply Heq; [now left|].
      assert (key x <= key p)%nat.
      { destruct Hin as [->|Hin]; [lia|].
        rewrite Forall_forall in Hx. now apply Hx. }
      destruct (Nat.eq_dec (key x) (key p)) as [E|N]; [exact E|].
      assert (Hr : raises (f x)) by (apply Hlt; [now left|lia]).
      rewrite Hfx in Hr. now apply not_raises_ok in Hr. }
    subst x. congruence.
  - destruct Hin as [->|Hin]; [congruence|].
    apply IH; auto.
    + intros q Hq; apply Hlt; now right.
    + intros q Hq; apply Heq; now right.
Qed.
End Sorted.

(** ** Primitive coercion *)

Section SimpleType.
Variable repr : value -> string.
Variable literal_eval : string -> literal_eval_outcome.

(** The fast path: a value of the requested class is returned as it is. *)
Lemma bind_simple_type_fast data p :
  type_is data p = true -> bind_simple_type repr literal_eval data p = Ok data.
Proof. unfold bind_simple_type; now intros ->. Qed.


(** What comes out of [__bind_simple_type] is of the requested class. *)
Lemma bind_simple_type_class data p v :
  bind_simple_type repr literal_eval data p = Ok v -> type_is v p = true.
Proof.
  unfold bind_simple_type.
  destruct (type_is data p) eqn:Hfast; [now intros [= <-]|].
  set (d := if isinstance_bool data then _ else _).
  destruct (coerce repr literal_eval d p) as [w|ex] eqn:Hc.
  - intros [= <-]. revert Hc. unfold coerce. destruct p.
    + destruct d; try discriminate.
      destruct (String.eqb (lower s) "true"); [now intros [= <-]|].
      destruct (String.eqb (lower s) "false"); [now intros [= <-]|discriminate].
    + destruct (py_float d); simpl; [|discriminate].
      unfold py_int. destruct (PyFloat.trunc a); try discriminate. now intros [= <-].
    + destruct (py_float d); simpl; [|discriminate]. now intros [= <-].
    + destruct (literal_eval (py_str repr d)); try discriminate. now intros [= <-].
    + now intros [= <-].
  - destruct (is_type_or_value_error (exn_class ex)); discriminate.
Qed.

Lemma bind_simple_type_bool data :
  bind_simple_type repr literal_eval data PBool =
    match data with
    | VBool b => Ok data
    | VStr s =>
        if String.eqb (lower s) "true" then Ok (VBool true)
        else if String.eqb (lower s) "false" then Ok (VBool false)
        else raise ValidationError (MCannotBindValue data PBool)
    | _ => raise ValidationError (MCannotBindValue data PBool)
    end.
Proof.
  destruct data; try reflexivity.
  unfold bind_simple_type; simpl.
  destruct (String.eqb (lower s) "true"); [reflexivity|].
  destruct (String.eqb (lower s) "false"); reflexivity.
Qed.
End SimpleType.

(** ** Letter case *)

Lemma all_ascii_complete (P : ascii -> bool) :
  forallb P all_ascii = true -> forall c, P c = true.
Proof.
  intros H c. rewrite forallb_forall in H. apply H.
  unfold all_ascii. apply in_map_iff. exists (nat_of_ascii c). split.
  - apply ascii_nat_embedding.
  - apply in_seq. pose proof (nat_ascii_bounded c). lia.
Qed.

Lemma lower_ascii_letter c d :
  is_lower_letter d = true ->
  Ascii.eqb (lower_ascii c) d = Ascii.eqb c d || Ascii.eqb c (upper_ascii d).
Proof.
  revert d. revert c.
  assert (H : forallb (fun c => forallb (fun d =>
            implb (is_lower_letter d)
              (Bool.eqb (Ascii.eqb (lower_ascii c) d)
                        (Ascii.eqb c d || Ascii.eqb c (upper_ascii d))))
            all_ascii) all_ascii = true) by (vm_compute; reflexivity).
  intros c d Hd.
  pose proof (all_ascii_complete _ (all_ascii_complete _ H c) d) as E.
  simpl in E. rewrite Hd in E. simpl in E. now apply Bool.eqb_prop in E.
Qed.

(** Lowering a string gives a lowercase word exactly when the string is
    that word up to letter case. *)
Lemma lower_is_word word :
  lowercase_word word = true ->
  forall s, String.eqb (lower s) word = ignoring_case s word.
Proof.
  induction word as [|d word IH]; intros Hw [|c s]; simpl; try reflexivity.
  simpl in Hw. apply andb_true_iff in Hw as [Hd Hw].
  now rewrite lower_ascii_letter, IH.
Qed.

(** ** Boolean target *)

(** C8. For a bool target [__bind_simple_type] succeeds exactly on a native
    boolean, returned as it is, and on a string that spells true or false
    up to letter case, turned into True or False; every other input is
    refused with a ValidationError that names the value and the type: the
    integers 0 and 1, the strings 0 and 1, other strings, other numbers,
    None. *)
Theorem bind_simple_type_bool_exactly :
  forall (repr : value -> string) (literal_eval : string -> literal_eval_outcome)
         (data : value),
    (forall v,
        bind_simple_type repr literal_eval data PBool = Ok v <->
        (exists b, data = VBool b /\ v = VBool b) \/
        (exists s, data = VStr s /\ ignoring_case s "true" = true /\ v = VBool true) \/
        (exists s, data = VStr s /\ ignoring_case s "false" = true /\ v = VBool false))
    /\ (is_ok (bind_simple_type repr literal_eval data PBool) = true \/
        bind_simple_type repr literal_eval data PBool
        = raise ValidationError (MCannotBindValue data PBool))
    /\ bind_simple_type repr literal_eval (VStr "TRUE") PBool = Ok (VBool true)
    /\ bind_simple_type repr literal_eval (VStr "fAlSe") PBool = Ok (VBool false)
    /\ (forall z, raises (bind_simple_type repr literal_eval (VInt z) PBool))
    /\ (forall f, raises (bind_simple_type repr literal_eval (VFloat f) PBool))
    /\ raises (bind_simple_type repr literal_eval VNone PBool)
    /\ raises (bind_simple_type repr literal_eval (VStr "0") PBool)
    /\ raises (bind_simple_type repr literal_eval (VStr "1") PBool)
    /\ raises (bind_simple_type repr literal_eval (VStr "test") PBool).
Proof.
  intros repr literal_eval data.
  split; [|split].
  - intros v. rewrite bind_simple_type_bool.
    destruct data; try (split; [discriminate|];
      intros [(b' & E & _)|[(s' & E & _)|(s' & E & _)]]; discriminate).
    + split.
      * intros [= <-]. left. now exists b.
      * intros [(b' & E & ->)|[(s' & E & _)|(s' & E & _)]]; try discriminate.
        now injection E as <-.
    + rewrite !lower_is_word by reflexivity.
      destruct (ignoring_case s "true") eqn:Ht;
        [|destruct (ignoring_case s "false") eqn:Hf].
      * split.
        -- intros [= <-]. right; left. now exists s.
        -- intros [(b' & E & _)|[(s' & E & _ & ->)|(s' & E & Hf' & _)]];
             try discriminate; try reflexivity.
           injection E as <-.
           destruct s as [|c1 [|c2 [|c3 [|c4 [|c5 s]]]]]; simpl in Ht, Hf';
             rewrite ?andb_false_r in *; try discriminate.
      * split.
        -- intros [= <-]. right; right. now exists s.
        -- intros [(b' & E & _)|[(s' & E & Ht' & _)|(s' & E & _ & ->)]];
             try discriminate; try reflexivity.
           injection E as <-. congruence.
      * split; [discriminate|].
        intros [(b' & E & _)|[(s' & E & Ht' & _)|(s' & E & Hf' & _)]];
          try discriminate; injection E as <-; congruence.
  - rewrite bind_simple_type_bool.
    destruct data; try (now right); try (now left).
    destruct (String.eqb (lower s) "true"); [now left|].
    destruct (String.eqb (lower s) "false"); [now left|now right].
  - repeat split; try reflexivity; intros; rewrite bind_simple_type_bool;
      apply raises_Raise.
Qed.

(** ** Literal *)

Lemma try_literals_find repr literal_eval data args :
  try_literals repr literal_eval data args =
    match find (literal_matches repr literal_eval data) args with
    | Some c =>
        match bind_simple_type repr literal_eval data (type_of_literal c) with
        | Ok v => Some v
        | Raise _ => None
        end
    | None => None
    end.
Proof.
  induction args as [|c args IH]; simpl; [reflexivity|].
  unfold literal_matches at 1.
  destruct (bind_simple_type repr literal_eval data (type_of_literal c)) as [v|e] eqn:Hc.
  - destruct (py_eq v c); [now rewrite Hc|exact IH].
  - exact IH.
Qed.


(** ** Union *)

Lemma as_primitive_TPrim p : as_primitive (TPrim p) = Some p.
Proof. now destruct p. Qed.

Lemma as_primitive_Some ft p : as_primitive ft = Some p -> ft = TPrim p.
Proof.
  destruct ft as [q| | | | | | |]; try discriminate.
  unfold as_primitive.
  destruct (existsb (prim_eqb q) primitive_types); [|discriminate].
  now intros [= ->].
Qed.

Lemma in_primitive_types_TPrim ft :
  in_primitive_types ft = true <-> exists p, ft = TPrim p.
Proof.
  unfold in_primitive_types. split.
  - destruct (as_primitive ft) as [p|] eqn:E; [|discriminate].
    intros _. exists p. now apply as_primitive_Some.
  - intros [p ->]. now rewrite as_primitive_TPrim.
Qed.

Lemma primitive_fields_types_In p field_types :
  In p (primitive_fields_types field_types) <-> In (TPrim p) field_types.
Proof.
  unfold primitive_fields_types. rewrite in_flat_map. split.
  - intros (ft & Hin & Hp).
    destruct (as_primitive ft) as [q|] eqn:E; [|destruct Hp].
    destruct Hp as [<-|[]]. apply as_primitive_Some in E. now subst.
  - intros Hin. exists (TPrim p). split; [assumption|].
    rewrite as_primitive_TPrim. now left.
Qed.

Lemma declared_In p field_types :
  declared p field_types = true <-> In (TPrim p) field_types.
Proof.
  unfold declared. rewrite existsb_exists. split.
  - intros (ft & Hin & Hp). destruct ft; try discriminate.
    apply prim_eqb_eq in Hp. now subst.
  - intros Hin. exists (TPrim p). split; [assumption|apply prim_eqb_refl].
Qed.

Lemma priority_inj p q : priority p = priority q -> p = q.
Proof. destruct p, q; cbv; intros H; try reflexivity; discriminate. Qed.

(** [find] over [primitive_types] returns the accepted class of least
    priority index. *)
Lemma find_primitive_types (P : prim -> bool) p :
  find P primitive_types = Some p ->
  P p = true /\ forall q, (priority q < priority p)%nat -> P q = false.
Proof.
  unfold primitive_types; simpl.
  destruct (P PBool) eqn:Hb; [intros [= <-]; split; [assumption|]|].
  { intros q; destruct q; cbv; intros; lia. }
  destruct (P PInt) eqn:Hi; [intros [= <-]; split; [assumption|]|].
  { intros q; destruct q; cbv [priority index_in primitive_types prim_eqb]; intros; try lia; assumption. }
  destruct (P PFloat) eqn:Hf; [intros [= <-]; split; [assumption|]|].
  { intros q; destruct q; cbv [priority index_in primitive_types prim_eqb]; intros; try lia; assumption. }
  destruct (P PNoneType) eqn:Hn; [intros [= <-]; split; [assumption|]|].
  { intros q; destruct q; cbv [priority index_in primitive_types prim_eqb]; intros; try lia; assumption. }
  destruct (P PStr) eqn:Hs; [intros [= <-]; split; [assumption|]|discriminate].
  intros q; destruct q; cbv [priority index_in primitive_types prim_eqb]; intros; try lia; assumption.
Qed.

Lemma find_primitive_types_none (P : prim -> bool) :
  find P primitive_types = None -> forall q, P q = false.
Proof.
  intros H q. apply (find_none _ _ H). destruct q; simpl; tauto.
Qed.

Section Union.
Variable repr : value -> string.
Variable literal_eval : string -> literal_eval_outcome.

(** The first loop returns what the first non-primitive alternative that
    binds as a class gives. *)
Lemma try_classes_find data field_types :
  try_classes (bind_class repr literal_eval) data field_types =
    match find (binds_as_class repr literal_eval data) field_types with
    | Some ft =>
        match bind_class repr literal_eval ft data with
        | Ok v => Some v
        | Raise _ => None
        end
    | None => None
    end.
Proof.
  induction field_types as [|ft rest IH]; simpl; [reflexivity|].
  unfold binds_as_class at 1.
  destruct (in_primitive_types ft); simpl; [exact IH|].
  destruct (bind_class repr literal_eval ft data) as [v|e] eqn:Hb; simpl.
  - now rewrite Hb.
  - exact IH.
Qed.

(** The second loop returns what the declared primitive class that comes
    first in [primitive_types] and coerces gives. *)
Lemma sorted_primitives_find data field_types :
  first_ok (bind_simple_type repr literal_eval data)
           (sorted priority (primitive_fields_types field_types)) =
    match find (binds_as_primitive repr literal_eval data field_types) primitive_types with
    | Some p =>
        match bind_simple_type repr literal_eval data p with
        | Ok v => Some v
        | Raise _ => None
        end
    | None => None
    end.
Proof.
  destruct (find _ primitive_types) as [p|] eqn:Hf.
  - apply find_primitive_types in Hf as [Hp Hlt].
    unfold binds_as_primitive in Hp. apply andb_true_iff in Hp as [Hd Hok].
    destruct (bind_simple_type repr literal_eval data p) as [v|e] eqn:Hv;
      [|discriminate].
    apply first_ok_sorted with (key := priority) (p := p).
    + apply sorted_sorted.
    + apply sorted_In, primitive_fields_types_In, declared_In, Hd.
    + exact Hv.
    + intros q Hq Hlt'. apply sorted_In, primitive_fields_types_In, declared_In in Hq.
      specialize (Hlt q Hlt'). unfold binds_as_primitive in Hlt.
      rewrite Hq in Hlt. simpl in Hlt.
      destruct (bind_simple_type repr literal_eval data q);
        [discriminate|apply raises_Raise].
    + intros q _. apply priority_inj.
  - apply first_ok_none, Forall_forall. intros q Hq.
    apply sorted_In, primitive_fields_types_In, declared_In in Hq.
    pose proof (find_primitive_types_none _ Hf q) as Hn.
    unfold binds_as_primitive in Hn. rewrite Hq in Hn. simpl in Hn.
    destruct (bind_simple_type repr literal_eval data q);
      [discriminate|apply raises_Raise].
Qed.

(** [__bind_union] in one equation. *)
Lemma bind_union_find data field_types :
  bind_union repr literal_eval data field_types =
    match find (binds_as_class repr literal_eval data) field_types with
    | Some ft => bind_class repr literal_eval ft data
    | None =>
        match find (binds_as_primitive repr literal_eval data field_types)
                   primitive_types with
        | Some p => bind_simple_type repr literal_eval data p
        | None =>
            if str_in field_types then Ok data
            else raise ValidationError (MCannotBindUnion data field_types)
        end
    end.
Proof.
  unfold bind_union, bind_union_with.
  rewrite try_classes_find, sorted_primitives_find.
  destruct (find (binds_as_class repr literal_eval data) field_types) as [ft|] eqn:Hc.
  - apply find_some in Hc as [_ Hc]. unfold binds_as_class in Hc.
    apply andb_true_iff in Hc as [_ Hc].
    destruct (bind_class repr literal_eval ft data); [reflexivity|discriminate].
  - destruct (find _ primitive_types) as [p|] eqn:Hp; [|reflexivity].
    apply find_some in Hp as [_ Hp]. unfold binds_as_primitive in Hp.
    apply andb_true_iff in Hp as [_ Hp].
    destruct (bind_simple_type repr literal_eval data p); [reflexivity|discriminate].
Qed.
End Union.

(** C1. [__bind_union] works in two ordered phases.  First the alternatives
    that are not primitive are tried as classes in declared order, and the
    first that binds is the result.  When none binds, the declared
    primitive alternatives are tried in the order bool, int, float,
    NoneType, str of [primitive_types], whatever their declared order, and
    the first that coerces is the result.  For Union[int, str, bool]: 23
    gives the int 23, the string test gives the str test, True gives the
    bool True and not 1. *)
Theorem bind_union_two_phases :
  forall (repr : value -> string) (literal_eval : string -> literal_eval_outcome),
    (forall data field_types,
        bind_union repr literal_eval data field_types =
          match find (binds_as_class repr literal_eval data) field_types with
          | Some ft => bind_class repr literal_eval ft data
          | None =>
              match find (binds_as_primitive repr literal_eval data field_types)
                         [PBool; PInt; PFloat; PNoneType; PStr] with
              | Some p => bind_simple_type repr literal_eval data p
              | None =>
                  if str_in field_types then Ok data
                  else raise ValidationError (MCannotBindUnion data field_types)
              end
          end)
    /\ (let alternatives := [TPrim PInt; TPrim PStr; TPrim PBool] in
        bind_union repr literal_eval (VInt 23) alternatives = Ok (VInt 23)
        /\ bind_union repr literal_eval (VStr "test") alternatives = Ok (VStr "test")
        /\ bind_union repr literal_eval (VBool true) alternatives = Ok (VBool true)).
Proof.
  intros repr literal_eval. split.
  - intros data field_types. apply bind_union_find.
  - cbv zeta. repeat split; vm_compute; reflexivity.
Qed.

Lemma find_existsb_false {A} (P : A -> bool) l :
  existsb P l = false -> find P l = None.
Proof.
  induction l as [|x l IH]; simpl; [reflexivity|].
  destruct (P x); simpl; [discriminate|exact IH].
Qed.

Lemma str_in_declared field_types : str_in field_types = declared PStr field_types.
Proof.
  unfold str_in, declared. induction field_types as [|ft rest IH]; simpl; [reflexivity|].
  rewrite IH. f_equal. destruct ft as [[]| | | | | | |]; reflexivity.
Qed.



(** ** Collections *)

Lemma zip_map_result_ok {A B C} (f : A -> B -> result C) xs ys zs :
  zip_map_result f xs ys = Ok zs ->
  List.length zs = Nat.min (List.length xs) (List.length ys) /\
  forall i x y,
    nth_error xs i = Some x -> nth_error ys i = Some y ->
    exists z, nth_error zs i = Some z /\ f x y = Ok z.
Proof.
  revert xs zs; induction ys as [|y ys IH]; intros [|x xs] zs; simpl;
    try (intros [= <-]; split; [reflexivity|]; intros [|i] ? ?; discriminate).
  destruct (f x y) as [z|e] eqn:Hz; simpl; [|discriminate].
  destruct (zip_map_result f xs ys) as [zs'|e] eqn:Hzs; simpl; [|discriminate].
  intros [= <-]. destruct (IH _ _ Hzs) as [Hlen Hnth]. split.
  - simpl. now rewrite Hlen.
  - intros [|i] x' y'; simpl.
    + intros [= <-] [= <-]. now exists z.
    + apply Hnth.
Qed.

Lemma zip_map_result_firstn {A B C} (f : A -> B -> result C) xs ys :
  zip_map_result f xs ys =
    zip_map_result f (firstn (Nat.min (List.length xs) (List.length ys)) xs)
                     (firstn (Nat.min (List.length xs) (List.length ys)) ys).
Proof.
  revert xs; induction ys as [|y ys IH]; intros [|x xs]; simpl; try reflexivity.
  now rewrite <- IH.
Qed.

(** C4, as the code has it.  [__bind_tuple] pairs the input with the
    element types by [zip]: whatever the input iterates to (a list, a
    tuple, ...), position by position each item is bound against the type
    at its own position, as far as the shorter of the two goes.  The
    result has that many elements; items or types beyond the shorter are
    not looked at and no length is compared, so the binding succeeds as
    soon as the paired positions bind.  Only an input that cannot be
    iterated is refused for its shape. *)
Theorem bind_tuple_pairs_positions :
  forall (repr : value -> string) (literal_eval : string -> literal_eval_outcome),
    (forall data items args,
        py_iter data = Ok items ->
        bind_tuple repr literal_eval data args =
          (bound <- map_result (fun pair => bind repr literal_eval (fst pair) (snd pair))
                               (combine items args) ;;
           Ok (VTuple bound)))
    /\ (forall data items args,
        py_iter data = Ok items ->
        bind_tuple repr literal_eval data args =
          bind_tuple repr literal_eval
            (VTuple (firstn (Nat.min (List.length items) (List.length args)) items))
            (firstn (Nat.min (List.length items) (List.length args)) args))
    /\ (forall data items args bound,
        py_iter data = Ok items ->
        Forall2 (fun pair b => bind repr literal_eval (fst pair) (snd pair) = Ok b)
                (combine items args) bound ->
        bind_tuple repr literal_eval data args = Ok (VTuple bound))
    /\ (forall data args v,
        bind_tuple repr literal_eval data args = Ok v ->
        exists items bound,
          py_iter data = Ok items /\ v = VTuple bound /\
          List.length bound = Nat.min (List.length items) (List.length args) /\
          forall i item item_type,
            nth_error items i = Some item -> nth_error args i = Some item_type ->
            exists b, nth_error bound i = Some b /\
                      bind repr literal_eval item item_type = Ok b)
    /\ (forall data args e,
        py_iter data = Raise e ->
        bind_tuple repr literal_eval data args = Raise e).
Proof.
  intros repr literal_eval.
  assert (Hpairs : forall data items args,
             py_iter data = Ok items ->
             bind_tuple repr literal_eval data args =
               (bound <- map_result (fun pair => bind repr literal_eval (fst pair) (snd pair))
                                    (combine items args) ;;
                Ok (VTuple bound))).
  { intros data items args Hi. unfold bind_tuple, bind_tuple_with.
    rewrite Hi; simpl. now rewrite zip_map_result_combine. }
  split; [exact Hpairs|]. split; [|split; [|split]].
  - intros data items args Hi. unfold bind_tuple, bind_tuple_with.
    rewrite Hi; simpl. now rewrite zip_map_result_firstn at 1.
  - intros data items args bound Hi HF. rewrite (Hpairs _ _ _ Hi).
    apply (map_result_ok (fun pair => bind repr literal_eval (fst pair) (snd pair))) in HF.
    now rewrite HF.
  - intros data args v. unfold bind_tuple, bind_tuple_with.
    destruct (py_iter data) as [items|e]; simpl; [|discriminate].
    destruct (zip_map_result _ items args) as [bound|e] eqn:Hz; simpl; [|discriminate].
    intros [= <-]. exists items, bound.
    destruct (zip_map_result_ok _ _ _ Hz) as [Hlen Hnth]. auto.
  - intros data args e Hi. unfold bind_tuple, bind_tuple_with. now rewrite Hi.
Qed.

Lemma bind_tuple_pairs_positions_witness :
  bind_tuple Sample.repr Sample.literal_eval (VList [VStr "7"]) [TPrim PInt; TPrim PStr]
  = Ok (VTuple [VInt 7]).
Proof.
  destruct (bind_tuple_pairs_positions Sample.repr Sample.literal_eval)
    as (_ & _ & H & _).
  apply (H (VList [VStr "7"]) [VStr "7"] [TPrim PInt; TPrim PStr] [VInt 7]).
  - reflexivity.
  - constructor; [vm_compute; reflexivity|constructor].
Defined.

(** C4 as stated fails: an input shorter or longer than the tuple type
    binds, with no error, be it a list, as the parsers give, or a tuple. *)
Lemma bind_tuple_wrong_length_binds :
  List.length [VInt 1] <> List.length [TPrim PInt; TPrim PStr]
  /\ bind_tuple Sample.repr Sample.literal_eval (VList [VInt 1]) [TPrim PInt; TPrim PStr]
     = Ok (VTuple [VInt 1])
  /\ bind_tuple Sample.repr Sample.literal_eval (VTuple [VInt 1]) [TPrim PInt; TPrim PStr]
     = Ok (VTuple [VInt 1])
  /\ List.length [VInt 1; VStr "a"; VInt 3] <> List.length [TPrim PInt; TPrim PStr]
  /\ bind_tuple Sample.repr Sample.literal_eval
       (VList [VInt 1; VStr "a"; VInt 3]) [TPrim PInt; TPrim PStr]
     = Ok (VTuple [VInt 1; VStr "a"])
  /\ bind_tuple Sample.repr Sample.literal_eval
       (VTuple [VInt 1; VStr "a"; VInt 3]) [TPrim PInt; TPrim PStr]
     = Ok (VTuple [VInt 1; VStr "a"])
  /\ bind Sample.repr Sample.literal_eval
       (VDict [("field", VList [VInt 1])])
       (TClass "TestConfigTuple" [("field", TTuple [TPrim PInt; TPrim PStr])])
     = Ok (VObj "TestConfigTuple" [("field", VTuple [VInt 1])])
  /\ bind Sample.repr Sample.literal_eval
       (VDict [("field", VList [VInt 1; VStr "a"; VInt 3])])
       (TClass "TestConfigTuple" [("field", TTuple [TPrim PInt; TPrim PStr])])
     = Ok (VObj "TestConfigTuple" [("field", VTuple [VInt 1; VStr "a"])]).
Proof. repeat split; try discriminate; vm_compute; reflexivity. Qed.

(** C5, as the code has it.  [__bind_set_list] binds every item of the
    input, in input order, against the one item type and hands the list of
    results to [list] or [set].  The first item that fails ends the
    binding with that item's own exception, unchanged: the exception
    carries what the item's binding put in it and nothing about the
    position of the item. *)
Theorem bind_set_list_elements :
  forall (repr : value -> string) (literal_eval : string -> literal_eval_outcome),
    (forall data o item_type v,
        bind_set_list repr literal_eval data o item_type = Ok v <->
        exists items bound,
          py_iter data = Ok items /\ v = construct o bound /\
          Forall2 (fun item b => bind repr literal_eval item item_type = Ok b)
                  items bound)
    /\ (forall data o item_type before item after ex,
        py_iter data = Ok (before ++ item :: after) ->
        Forall (fun a => is_ok (bind repr literal_eval a item_type) = true) before ->
        bind repr literal_eval item item_type = Raise ex ->
        bind_set_list repr literal_eval data o item_type = Raise ex).
Proof.
  intros repr literal_eval. split.
  - intros data o item_type v. unfold bind_set_list, bind_set_list_with. split.
    + destruct (py_iter data) as [items|e]; simpl; [|discriminate].
      destruct (map_result _ items) as [bound|e] eqn:Hm; simpl; [|discriminate].
      intros [= <-]. exists items, bound. repeat split.
      now apply map_result_ok in Hm.
    + intros (items & bound & -> & -> & HF). simpl.
      apply (map_result_ok (fun item => bind repr literal_eval item item_type)) in HF.
      unfold bind in HF. now rewrite HF.
  - intros data o item_type before item after ex Hit Hb Hx.
    unfold bind_set_list, bind_set_list_with. rewrite Hit; simpl.
    unfold bind in Hb, Hx.
    now rewrite (map_result_raise _ _ after Hb Hx).
Qed.

Lemma bind_set_list_elements_witness :
  bind_set_list Sample.repr Sample.literal_eval
    (VList ([VStr "1"] ++ VStr "two" :: [VStr "3"])) OList (TPrim PInt)
  = raise ValidationError (MCannotBindValue (VStr "two") PInt).
Proof.
  apply (proj2 (bind_set_list_elements Sample.repr Sample.literal_eval)
           (VList [VStr "1"; VStr "two"; VStr "3"]) OList (TPrim PInt)
           [VStr "1"] (VStr "two") [VStr "3"]).
  - reflexivity.
  - repeat constructor.
  - reflexivity.
Defined.

(** C5 as stated fails: the exception of a failing item is the same
    wherever the item stands, and names no index, also once the enclosing
    class has put the field's name before it. *)
Lemma bind_set_list_error_names_no_index :
  bind_set_list Sample.repr Sample.literal_eval
    (VList [VStr "1"; VStr "two"; VStr "3"]) OList (TPrim PInt)
  = raise ValidationError (MCannotBindValue (VStr "two") PInt)
  /\ bind_set_list Sample.repr Sample.literal_eval
       (VList [VStr "two"; VStr "1"; VStr "3"]) OList (TPrim PInt)
     = raise ValidationError (MCannotBindValue (VStr "two") PInt)
  /\ bind Sample.repr Sample.literal_eval
       (VDict [("field", VList [VStr "1"; VStr "two"; VStr "3"])])
       (TClass "TestConfigList" [("field", TList (TPrim PInt))])
     = raise ValidationError
         (MFailedToBind "field" (MCannotBindValue (VStr "two") PInt)).
Proof. repeat split; vm_compute; reflexivity. Qed.

(** ** Maps *)

(** C6, as the code has it.  [__bind_dict] refuses a Dict whose key type
    is not str before it looks at the input: whatever the input is, it
    raises a ValidationError that carries the key type.  This is the
    exception class of every binding failure; inside a class the loop of
    [__bind_class] puts the field's name before it like before any other. *)
Theorem bind_dict_key_type :
  forall (repr : value -> string) (literal_eval : string -> literal_eval_outcome)
         (data : value) (key_type value_type : ty),
    is_not_str key_type = true ->
    bind_dict repr literal_eval data key_type value_type
    = raise ValidationError (MOnlyStrKeys key_type)
    /\ (forall entries field_name,
        bind_entry repr literal_eval (VDict entries)
                   (field_name, TDict key_type value_type)
        = raise ValidationError (MFailedToBind field_name (MOnlyStrKeys key_type))).
Proof.
  intros repr literal_eval data key_type value_type Hkey. split.
  - unfold bind_dict, bind_dict_with. now rewrite Hkey.
  - intros entries field_name. unfold bind_entry, bind_entry_with; simpl.
    destruct (lookup field_name entries); simpl;
      unfold bind_dict_with; now rewrite Hkey.
Qed.

Lemma bind_dict_key_type_witness :
  bind_dict Sample.repr Sample.literal_eval
    (VDict [("key1", VDict [("nested_field", VInt 123)])])
    (TPrim PInt) (TClass "NestedConfig" [("nested_field", TPrim PInt)])
  = raise ValidationError (MOnlyStrKeys (TPrim PInt))
  /\ (forall entries field_name,
      bind_entry Sample.repr Sample.literal_eval (VDict entries)
        (field_name,
         TDict (TPrim PInt) (TClass "NestedConfig" [("nested_field", TPrim PInt)]))
      = raise ValidationError (MFailedToBind field_name (MOnlyStrKeys (TPrim PInt)))).
Proof.
  apply (bind_dict_key_type Sample.repr Sample.literal_eval
           (VDict [("key1", VDict [("nested_field", VInt 123)])])
           (TPrim PInt) (TClass "NestedConfig" [("nested_field", TPrim PInt)])).
  reflexivity.
Defined.

(** C6 as stated fails: the refusal of the key type has the class of a
    failure on a value, ValidationError, and a Union recovers from it like
    from any other failure of an alternative. *)
Lemma bind_dict_key_error_is_a_binding_error :
  let nested := TClass "NestedConfig" [("nested_field", TPrim PInt)] in
  let int_keys := TClass "InvalidDictKeyConfig" [("field", TDict (TPrim PInt) nested)] in
  let str_keys := TClass "TestConfig" [("field", TDict (TPrim PStr) nested)] in
  let data := VDict [("field", VDict [("key1", VDict [("nested_field", VInt 123)])])] in
  bind Sample.repr Sample.literal_eval data int_keys
  = raise ValidationError (MFailedToBind "field" (MOnlyStrKeys (TPrim PInt)))
  /\ bind Sample.repr Sample.literal_eval
       (VDict [("field", VDict [("key1", VDict [("nested_field", VStr "not an int")])])])
       str_keys
     = raise ValidationError
         (MFailedToBind "field"
            (MFailedToBind "nested_field" (MCannotBindValue (VStr "not an int") PInt)))
  /\ bind_union Sample.repr Sample.literal_eval data [int_keys; str_keys]
     = Ok (VObj "TestConfig"
             [("field", VDict [("key1", VObj "NestedConfig" [("nested_field", VInt 123)])])]).
Proof. cbv zeta. repeat split; vm_compute; reflexivity. Qed.

(** C7. With str keys, [__bind_dict] binds the values only when the value
    type is a class: each value is then bound as that class, keys and
    order kept, and the first value that fails ends the binding with its
    exception.  For any other value type the input is returned as it is,
    so Dict[str, int] leaves the string 1 a string. *)
Theorem bind_dict_values :
  forall (repr : value -> string) (literal_eval : string -> literal_eval_outcome),
    (forall data value_type,
        if_custom_class value_type = false ->
        bind_dict repr literal_eval data (TPrim PStr) value_type = Ok data)
    /\ (forall entries value_type v,
        if_custom_class value_type = true ->
        (bind_dict repr literal_eval (VDict entries) (TPrim PStr) value_type = Ok v <->
         exists bound,
           v = VDict bound /\
           Forall2 (fun entry b =>
                      fst b = fst entry /\
                      bind_class repr literal_eval value_type (snd entry) = Ok (snd b))
                   entries bound))
    /\ (forall before key value after value_type ex,
        if_custom_class value_type = true ->
        Forall (fun entry =>
                  is_ok (bind_class repr literal_eval value_type (snd entry)) = true)
               before ->
        bind_class repr literal_eval value_type value = Raise ex ->
        bind_dict repr literal_eval (VDict (before ++ (key, value) :: after))
                  (TPrim PStr) value_type = Raise ex)
    /\ bind_dict repr literal_eval (VDict [("key1", VStr "1")]) (TPrim PStr) (TPrim PInt)
       = Ok (VDict [("key1", VStr "1")]).
Proof.
  intros repr literal_eval. split; [|split; [|split]].
  - intros data value_type Hc. unfold bind_dict, bind_dict_with; simpl.
    now rewrite Hc.
  - intros entries value_type v Hc. unfold bind_dict, bind_dict_with; simpl.
    rewrite Hc. split.
    + destruct (map_result _ entries) as [bound|e] eqn:Hm; simpl; [|discriminate].
      intros [= <-]. exists bound. split; [reflexivity|].
      apply map_result_ok in Hm.
      eapply Forall2_impl; [|exact Hm]. intros [k x] [k' y]; simpl.
      destruct (bind_class repr literal_eval value_type x); simpl; [|discriminate].
      now intros [= <- <-].
    + intros (bound & -> & HF).
      assert (Hm : map_result
                (fun kv => v <- bind_class repr literal_eval value_type (snd kv) ;;
                           Ok (fst kv, v)) entries = Ok bound).
      { apply map_result_ok. eapply Forall2_impl; [|exact HF].
        intros [k x] [k' y]; simpl. intros [-> ->]. reflexivity. }
      now rewrite Hm.
  - intros before key value after value_type ex Hc Hb Hx.
    unfold bind_dict, bind_dict_with; simpl. rewrite Hc.
    erewrite map_result_raise; [reflexivity| |simpl; now rewrite Hx].
    eapply Forall_impl; [|exact Hb]. intros [k x]; simpl.
    now destruct (bind_class repr literal_eval value_type x).
  - reflexivity.
Qed.

Lemma bind_dict_values_witness :
  bind_dict Sample.repr Sample.literal_eval
    (VDict [("key1", VStr "1")]) (TPrim PStr) (TPrim PInt)
  = Ok (VDict [("key1", VStr "1")])
  /\ bind_dict Sample.repr Sample.literal_eval
       (VDict ([("key1", VDict [("nested_field", VInt 123)])]
               ++ ("key2", VDict [("nested_field", VStr "not an int")]) :: []))
       (TPrim PStr) (TClass "NestedConfig" [("nested_field", TPrim PInt)])
     = raise ValidationError
         (MFailedToBind "nested_field" (MCannotBindValue (VStr "not an int") PInt)).
Proof.
  destruct (bind_dict_values Sample.repr Sample.literal_eval) as (Hpass & _ & Hfail & _).
  split.
  - apply (Hpass (VDict [("key1", VStr "1")]) (TPrim PInt)). reflexivity.
  - apply (Hfail [("key1", VDict [("nested_field", VInt 123)])] "key2"
             (VDict [("nested_field", VStr "not an int")]) []
             (TClass "NestedConfig" [("nested_field", TPrim PInt)])).
    + reflexivity.
    + repeat constructor.
    + reflexivity.
Defined.

(** ** Classes *)

Section Class.
Variable repr : value -> string.
Variable literal_eval : string -> literal_eval_outcome.

Lemma bind_class_TClass name type_hints data :
  bind_class repr literal_eval (TClass name type_hints) data =
    (kw_fields <- map_result (bind_entry repr literal_eval data) type_hints ;;
     Ok (VObj name kw_fields)).
Proof. reflexivity. Qed.

(** A turn of the loop sees the input through [data.get(field_name)] only. *)
Lemma bind_entry_dict_get data data' field_name field_type :
  dict_get data field_name = dict_get data' field_name ->
  bind_entry repr literal_eval data (field_name, field_type)
  = bind_entry repr literal_eval data' (field_name, field_type).
Proof. unfold bind_entry, bind_entry_with. now intros ->. Qed.

Lemma bind_class_dict_get name type_hints data data' :
  (forall field_name, In field_name (List.map fst type_hints) ->
                      dict_get data field_name = dict_get data' field_name) ->
  bind_class repr literal_eval (TClass name type_hints) data
  = bind_class repr literal_eval (TClass name type_hints) data'.
Proof.
  intros H. rewrite !bind_class_TClass. f_equal.
  apply map_result_ext. intros [field_name field_type] Hin.
  apply bind_entry_dict_get, H, in_map_iff. now exists (field_name, field_type).
Qed.

Lemma bind_entry_name data hint bound :
  bind_entry repr literal_eval data hint = Ok bound -> fst bound = fst hint.
Proof.
  destruct hint as [field_name field_type]. unfold bind_entry, bind_entry_with.
  destruct (bind_result _ _); [now intros [= <-]|discriminate].
Qed.

(** An instance has the annotated fields, all of them, in their order. *)
Lemma bind_class_fields name type_hints data v :
  bind_class repr literal_eval (TClass name type_hints) data = Ok v ->
  exists kw_fields,
    v = VObj name kw_fields /\ List.map fst kw_fields = List.map fst type_hints.
Proof.
  rewrite bind_class_TClass.
  destruct (map_result _ type_hints) as [kw|e] eqn:Hm; simpl; [|discriminate].
  intros [= <-]. exists kw. split; [reflexivity|].
  apply map_result_ok in Hm.
  induction Hm as [|hint b hints kw Hb _ IH]; simpl; [reflexivity|].
  now rewrite IH, (bind_entry_name _ _ Hb).
Qed.
End Class.

Lemma lookup_app key entries entries' :
  lookup key (entries ++ entries') =
    match lookup key entries with
    | Some v => Some v
    | None => lookup key entries'
    end.
Proof.
  induction entries as [|[k v] entries IH]; simpl; [reflexivity|].
  now destruct (String.eqb k key).
Qed.

Lemma lookup_declared_entries type_hints entries field_name :
  In field_name (List.map fst type_hints) ->
  lookup field_name (declared_entries type_hints entries) = lookup field_name entries.
Proof.
  intros Hin. unfold declared_entries.
  induction entries as [|[k v] entries IH]; simpl; [reflexivity|].
  destruct (existsb (String.eqb k) (List.map fst type_hints)) eqn:Hk; simpl.
  - now rewrite IH.
  - destruct (String.eqb k field_name) eqn:E; [|exact IH].
    apply String.eqb_eq in E; subst k.
    assert (existsb (String.eqb field_name) (List.map fst type_hints) = true).
    { apply existsb_exists. exists field_name. split; [assumption|apply String.eqb_refl]. }
    congruence.
Qed.

(** C9. A field whose name is not a key of the input dict is bound against
    None: the loop of [__bind_class] gets None from [data.get] and goes on
    as with any value, so the field's outcome is that of binding None
    against the field's own type, and the dict binds like the same dict
    with the key present and None under it.  A bool-or-None field absent
    from the input is None; an absent int field fails. *)
Theorem absent_field_binds_None :
  forall (repr : value -> string) (literal_eval : string -> literal_eval_outcome)
         (entries : list (string * value)) (field_name : string),
    lookup field_name entries = None ->
    (forall field_type,
        bind_entry repr literal_eval (VDict entries) (field_name, field_type) =
          match bind_field repr literal_eval VNone field_type with
          | Ok v => Ok (field_name, v)
          | Raise ex => raise ValidationError (MFailedToBind field_name (exn_message ex))
          end)
    /\ (forall name type_hints,
        bind_class repr literal_eval (TClass name type_hints) (VDict entries)
        = bind_class repr literal_eval (TClass name type_hints)
            (VDict (entries ++ [(field_name, VNone)])))
    /\ bind_entry repr literal_eval (VDict entries)
         (field_name, TUnion [TPrim PBool; TPrim PNoneType])
       = Ok (field_name, VNone)
    /\ bind_entry repr literal_eval (VDict entries) (field_name, TPrim PInt)
       = raise ValidationError (MFailedToBind field_name (MCannotBindValue VNone PInt)).
Proof.
  intros repr literal_eval entries field_name Habsent.
  assert (Hentry : forall field_type,
    bind_entry repr literal_eval (VDict entries) (field_name, field_type) =
      match bind_field repr literal_eval VNone field_type with
      | Ok v => Ok (field_name, v)
      | Raise ex => raise ValidationError (MFailedToBind field_name (exn_message ex))
      end).
  { intros field_type. unfold bind_entry, bind_entry_with; simpl.
    now rewrite Habsent. }
  split; [exact Hentry|split; [|split]].
  - intros name type_hints. apply bind_class_dict_get. intros key _.
    simpl. rewrite lookup_app. destruct (lookup key entries) eqn:Hk; [reflexivity|].
    simpl. now destruct (String.eqb field_name key).
  - now rewrite Hentry.
  - now rewrite Hentry.
Qed.

Lemma absent_field_binds_None_witness :
  bind_class Sample.repr Sample.literal_eval
    (TClass "TestConfig" [("field", TPrim PInt);
                          ("other", TUnion [TPrim PBool; TPrim PNoneType])])
    (VDict [("field", VStr "23")])
  = Ok (VObj "TestConfig" [("field", VInt 23); ("other", VNone)]).
Proof.
  destruct (absent_field_binds_None Sample.repr Sample.literal_eval
              [("field", VStr "23")] "other" eq_refl) as (_ & H & _).
  rewrite H. reflexivity.
Defined.

(** C10. Keys of the input dict that are not annotated in the class play
    no part: [__bind_class] binds a dict like the dict cut down to the
    annotated keys, two dicts that agree on the annotated keys bind alike,
    be it to an instance or to an exception, and an instance has the
    annotated fields and no other. *)
Theorem extra_keys_ignored :
  forall (repr : value -> string) (literal_eval : string -> literal_eval_outcome)
         (name : string) (type_hints : list (string * ty))
         (entries : list (string * value)),
    bind_class repr literal_eval (TClass name type_hints) (VDict entries)
    = bind_class repr literal_eval (TClass name type_hints)
        (VDict (declared_entries type_hints entries))
    /\ (forall entries',
        (forall field_name, In field_name (List.map fst type_hints) ->
                            lookup field_name entries = lookup field_name entries') ->
        bind_class repr literal_eval (TClass name type_hints) (VDict entries)
        = bind_class repr literal_eval (TClass name type_hints) (VDict entries'))
    /\ (forall key extra,
        ~ In key (List.map fst type_hints) ->
        bind_class repr literal_eval (TClass name type_hints) (VDict ((key, extra) :: entries))
        = bind_class repr literal_eval (TClass name type_hints) (VDict entries))
    /\ (forall v,
        bind_class repr literal_eval (TClass name type_hints) (VDict entries) = Ok v ->
        exists kw_fields,
          v = VObj name kw_fields /\ List.map fst kw_fields = List.map fst type_hints).
Proof.
  intros repr literal_eval name type_hints entries.
  split; [|split; [|split]].
  - apply bind_class_dict_get. intros field_name Hin. simpl.
    now rewrite lookup_declared_entries.
  - intros entries' Hagree. apply bind_class_dict_get. intros field_name Hin.
    simpl. now rewrite Hagree.
  - intros key extra Hextra. apply bind_class_dict_get. intros field_name Hin.
    simpl. destruct (String.eqb key field_name) eqn:E; [|reflexivity].
    apply String.eqb_eq in E. subst key. contradiction.
  - intros v. apply bind_class_fields.
Qed.

Lemma extra_keys_ignored_witness :
  bind_class Sample.repr Sample.literal_eval
    (TClass "TestConfig" [("field", TPrim PInt)])
    (VDict [("unknown", VList [VNone]); ("field", VStr "23")])
  = bind_class Sample.repr Sample.literal_eval
      (TClass "TestConfig" [("field", TPrim PInt)])
      (VDict [("field", VStr "23")]).
Proof.
  destruct (extra_keys_ignored Sample.repr Sample.literal_eval
              "TestConfig" [("field", TPrim PInt)] [("field", VStr "23")])
    as (_ & _ & H & _).
  apply (H "unknown" (VList [VNone])).
  simpl. intros [E|[]]. discriminate E.
Defined.

(** ** The repository's tests

    The assertions of [binder_test.py] on the engine, replayed on the
    model. *)

Example test_bind_int :
  List.map (fun v => sample_bind (data_template v) (test_config (TPrim PInt)))
      [VStr "23"; VInt 23; VStr "7.12"; float_literal "7.12"; VStr "-23";
       VStr "000000"; VStr "00000023"]
  = List.map (fun z => with_field (VInt z)) [23; 23; 7; 7; -23; 0; 23]%Z
  /\ forallb (fun v => raises_validation_error
                         (sample_bind (data_template v) (test_config (TPrim PInt))))
       [VBool true; VStr "True"; VNone] = true.
Proof. split; vm_compute; reflexivity. Qed.

Example test_bind_float :
  List.map (fun v => sample_bind (data_template v) (test_config (TPrim PFloat)))
      [VStr "32.2"; float_literal "32.2"; VStr "7"; VInt 7; VStr "-23";
       VStr "000000"; VStr "00000032.2"]
  = List.map (fun text => with_field (float_literal text))
      ["32.2"; "32.2"; "7"; "7"; "-23"; "0"; "32.2"]
  /\ forallb (fun v => raises_validation_error
                         (sample_bind (data_template v) (test_config (TPrim PFloat))))
       [VStr "True"; VNone] = true.
Proof. split; vm_compute; reflexivity. Qed.

Example test_bind_bool :
  List.map (fun v => sample_bind (data_template v) (test_config (TPrim PBool)))
      [VStr "True"; VStr "False"; VBool true; VBool false]
  = List.map (fun b => with_field (VBool b)) [true; false; true; false]
  /\ forallb (fun v => raises_validation_error
                         (sample_bind (data_template v) (test_config (TPrim PBool))))
       [VStr "1"; VStr "0"; VInt 1; VInt 0; VStr "test"; VInt 1412;
        float_literal "0.1"; VNone] = true.
Proof. split; vm_compute; reflexivity. Qed.

Example test_bind_str :
  List.map (fun v => sample_bind (data_template v) (test_config (TPrim PStr)))
      [VStr "test"; VStr "23"; VInt 23; VStr "32.2"; VBool false; VNone]
  = List.map (fun s => with_field (VStr s))
      ["test"; "23"; "23"; "32.2"; "False"; "None"].
Proof. vm_compute; reflexivity. Qed.

Example test_bind_literal :
  let literal := TLiteral [LInt 1; LInt 2; LInt 3; LInt 5; LInt 8; LInt 13; LBool false] in
  List.map (fun v => sample_bind (data_template v) (test_config literal))
      [VInt 5; VStr "5"; VInt 13; VStr "13"; VStr "False"; VBool false]
  = List.map with_field [VInt 5; VInt 5; VInt 13; VInt 13; VBool false; VBool false]
  /\ forallb (fun v => raises_validation_error
                         (sample_bind (data_template v) (test_config literal)))
       [VInt 33; VStr "33"; VBool true; VStr "True"] = true.
Proof. split; vm_compute; reflexivity. Qed.

Example test_bind_union :
  let union := TUnion [TPrim PInt; TPrim PStr; TPrim PBool] in
  let optional := TUnion [TPrim PBool; TPrim PNoneType] in
  List.map (fun v => sample_bind (data_template v) (test_config union))
      [VInt 23; VStr "23"; float_literal "32.2"; VStr "32.2"; VStr "test";
       VBool true; VStr "True"; VBool false; VStr "False"; VNone]
  = List.map with_field
      [VInt 23; VInt 23; VInt 32; VInt 32; VStr "test";
       VBool true; VBool true; VBool false; VBool false; VStr "None"]
  /\ List.map (fun v => sample_bind (data_template v) (test_config optional))
       [VBool false; VStr "False"; VStr "None"; VNone]
     = List.map with_field [VBool false; VBool false; VNone; VNone]
  /\ forallb (fun v => raises_validation_error
                         (sample_bind (data_template v) (test_config optional)))
       [VInt 23; VStr "23"; VStr "test"] = true.
Proof. cbv zeta. repeat split; vm_compute; reflexivity. Qed.

Example test_bind_set_list :
  let nested := TClass "NestedConfig" [("field", TPrim PInt)] in
  sample_bind (data_template (VSet [VStr "1"; VStr "2"; VStr "3"]))
              (test_config (TSet (TPrim PInt)))
  = with_field (VSet [VInt 1; VInt 2; VInt 3])
  /\ sample_bind (data_template (VList [VStr "1"; VInt 2; VStr "3"]))
                 (test_config (TList (TPrim PInt)))
     = with_field (VList [VInt 1; VInt 2; VInt 3])
  /\ sample_bind (data_template (VList [data_template (VStr "1"); data_template (VInt 2)]))
                 (test_config (TList nested))
     = with_field (VList [VObj "NestedConfig" [("field", VInt 1)];
                          VObj "NestedConfig" [("field", VInt 2)]])
  /\ forallb (fun v => raises_validation_error (sample_bind (data_template v)
                                                  (test_config (TList (TPrim PInt)))))
       [VList [VStr "1"; VStr "two"; VStr "3"]] = true
  /\ raises_validation_error
       (sample_bind (data_template (VList [data_template (VStr "test1");
                                            data_template (VInt 2)]))
                    (test_config (TList nested))) = true.
Proof. cbv zeta. repeat split; vm_compute; reflexivity. Qed.

Example test_bind_tuple :
  let nested := TClass "TestConfigNested" [("field", TPrim PBool)] in
  let tuple := TTuple [TPrim PInt; TPrim PStr; TPrim PBool; nested] in
  sample_bind (data_template (VTuple [VStr "1"; VStr "test"; VStr "False";
                                      data_template (VStr "False")]))
              (test_config tuple)
  = with_field (VTuple [VInt 1; VStr "test"; VBool false;
                        VObj "TestConfigNested" [("field", VBool false)]])
  /\ forallb (fun v => raises_validation_error (sample_bind (data_template v)
                                                  (test_config tuple)))
       [VTuple [VInt 1; VInt 2; VInt 3; data_template (VBool true)];
        VTuple [VStr "False"; VStr "False"; VStr "False"; data_template (VBool true)]]
     = true.
Proof. cbv zeta. repeat split; vm_compute; reflexivity. Qed.

Example test_bind_dict :
  let nested := TClass "NestedConfig" [("nested_field", TPrim PInt)] in
  sample_bind
    (data_template (VDict [("key1", VDict [("nested_field", VInt 123)]);
                           ("key2", VDict [("nested_field", VInt 456)])]))
    (test_config (TDict (TPrim PStr) nested))
  = with_field (VDict [("key1", VObj "NestedConfig" [("nested_field", VInt 123)]);
                       ("key2", VObj "NestedConfig" [("nested_field", VInt 456)])])
  /\ raises_validation_error
       (sample_bind
          (data_template (VDict [("key1", VDict [("nested_field", VInt 123)])]))
          (test_config (TDict (TPrim PInt) nested))) = true
  /\ raises_validation_error
       (sample_bind
          (data_template (VDict [("key1", VDict [("nested_field", VStr "not an int")]);
                                 ("key2", VDict [("nested_field", VInt 456)])]))
          (test_config (TDict (TPrim PStr) nested))) = true.
Proof. cbv zeta. repeat split; vm_compute; reflexivity. Qed.

(** * Further properties of the engine *)

(** ** [__bind_simple_type] *)

(** X1. A value [__bind_simple_type] returns has exactly the requested class,
    and binding it again against that class returns it unchanged. *)
Theorem bind_simple_type_idempotent :
  forall (repr : value -> string) (literal_eval : string -> literal_eval_outcome)
         (data : value) (p : prim) (v : value),
    bind_simple_type repr literal_eval data p = Ok v ->
    type_is v p = true /\ bind_simple_type repr literal_eval v p = Ok v.
Proof.
  intros repr literal_eval data p v H.
  pose proof (bind_simple_type_class _ _ _ _ H) as Hc.
  split; [exact Hc|]. now apply bind_simple_type_fast.
Qed.

Lemma bind_simple_type_idempotent_witness :
  type_is (VInt 7) PInt = true
  /\ bind_simple_type Sample.repr Sample.literal_eval (VInt 7) PInt = Ok (VInt 7).
Proof.
  apply (bind_simple_type_idempotent Sample.repr Sample.literal_eval (VStr "7.12") PInt).
  vm_compute. reflexivity.
Defined.





(** X3. An int target does not turn every failure into a ValidationError: a
    string that [float] reads as an infinity, or the float infinity itself,
    makes [int] raise OverflowError, which the [except] clause does not
    catch.  As the value of a field the same input gives a ValidationError,
    the loop of [__bind_class] catching every exception. *)
Theorem bind_int_infinity_overflows :
  forall (repr : value -> string) (literal_eval : string -> literal_eval_outcome)
         (data : value) (sign : bool),
    isinstance_bool data = false ->
    py_float data = Ok (S754_infinity sign) ->
    bind_simple_type repr literal_eval data PInt
    = raise OverflowError (MBuiltin "cannot convert float infinity to integer" [])
    /\ (forall field_name,
        bind_entry repr literal_eval (VDict [(field_name, data)]) (field_name, TPrim PInt)
        = raise ValidationError
            (MFailedToBind field_name
               (MBuiltin "cannot convert float infinity to integer" []))).
Proof.
  intros repr literal_eval data sign Hb Hf.
  assert (H : bind_simple_type repr literal_eval data PInt
              = raise OverflowError
                  (MBuiltin "cannot convert float infinity to integer" [])).
  { unfold bind_simple_type. rewrite Hb.
    destruct data; try discriminate; simpl type_is; cbv iota.
    - exfalso. simpl in Hf. unfold PyFloat.of_int in Hf.
      destruct (binary_normalize _ _ _ _ _); discriminate.
    - unfold coerce; rewrite Hf; reflexivity.
    - unfold coerce; rewrite Hf; reflexivity. }
  split; [exact H|].
  intros field_name. unfold bind_entry, bind_entry_with; simpl.
  rewrite String.eqb_refl; simpl. now rewrite H.
Qed.

Lemma bind_int_infinity_overflows_witness :
  bind_simple_type Sample.repr Sample.literal_eval (VStr "1e999") PInt
  = raise OverflowError (MBuiltin "cannot convert float infinity to integer" [])
  /\ (forall field_name,
      bind_entry Sample.repr Sample.literal_eval
        (VDict [(field_name, VStr "1e999")]) (field_name, TPrim PInt)
      = raise ValidationError
          (MFailedToBind field_name
             (MBuiltin "cannot convert float infinity to integer" []))).
Proof.
  apply (@bind_int_infinity_overflows Sample.repr Sample.literal_eval (VStr "1e999") false).
  - reflexivity.
  - vm_compute. reflexivity.
Defined.

(** ** [__bind_class] *)

(** X4. [__bind_class] fails exactly when one of the annotated fields fails,
    at the first such field in declaration order, and then always with a
    ValidationError that puts the name of that field before what the
    field's own failure said; no other class of exception gets out. *)
Theorem bind_class_first_failure :
  forall (repr : value -> string) (literal_eval : string -> literal_eval_outcome)
         (name : string) (type_hints : list (string * ty)) (data : value) (ex : exn),
    bind_class repr literal_eval (TClass name type_hints) data = Raise ex <->
    exists before field_name field_type after cause,
      type_hints = before ++ (field_name, field_type) :: after /\
      Forall (fun hint => is_ok (bind_entry repr literal_eval data hint) = true) before /\
      (field_data <- dict_get data field_name ;;
       bind_field repr literal_eval field_data field_type) = Raise cause /\
      ex = Exn ValidationError (MFailedToBind field_name (exn_message cause)).
Proof.
  intros repr literal_eval name type_hints data ex.
  rewrite bind_class_TClass. split.
  - destruct (map_result _ type_hints) as [kw|e] eqn:Hm; simpl; [discriminate|].
    intros [= ->]. apply map_result_raise_inv in Hm.
    destruct Hm as (before & [field_name field_type] & after & -> & Hb & Hx).
    unfold bind_entry, bind_entry_with in Hx.
    destruct (bind_result (dict_get data field_name) _) as [v|cause] eqn:Hc;
      [discriminate|].
    injection Hx as <-.
    exists before, field_name, field_type, after, cause. repeat split; auto.
  - intros (before & field_name & field_type & after & cause & -> & Hb & Hc & ->).
    erewrite map_result_raise; [reflexivity|exact Hb|].
    unfold bind_entry, bind_entry_with.
    unfold bind_field in Hc. now rewrite Hc.
Qed.

(** X5. A class with at least one annotation binds nothing but a dict: any
    other input fails at the first field, on [data.get].  A class without
    annotations binds every input. *)
Theorem bind_class_needs_a_dict :
  forall (repr : value -> string) (literal_eval : string -> literal_eval_outcome)
         (name field_name : string) (field_type : ty) (rest : list (string * ty))
         (data : value),
    (forall entries, data <> VDict entries) ->
    bind_class repr literal_eval (TClass name ((field_name, field_type) :: rest)) data
    = raise ValidationError
        (MFailedToBind field_name (MBuiltin "object has no attribute 'get'" [data]))
    /\ bind_class repr literal_eval (TClass name []) data = Ok (VObj name []).
Proof.
  intros repr literal_eval name field_name field_type rest data Hdict.
  split; [|reflexivity].
  rewrite bind_class_TClass. simpl. unfold bind_entry, bind_entry_with.
  destruct data; try reflexivity. now destruct (Hdict entries).
Qed.

Lemma bind_class_needs_a_dict_witness :
  bind_class Sample.repr Sample.literal_eval
    (TClass "MainConfig" [("field1", TPrim PStr); ("field2", TPrim PFloat)]) VNone
  = raise ValidationError
      (MFailedToBind "field1" (MBuiltin "object has no attribute 'get'" [VNone]))
  /\ bind_class Sample.repr Sample.literal_eval (TClass "MainConfig" []) VNone
     = Ok (VObj "MainConfig" []).
Proof.
  apply (@bind_class_needs_a_dict Sample.repr Sample.literal_eval
           "MainConfig" "field1" (TPrim PStr) [("field2", TPrim PFloat)] VNone).
  intros entries. discriminate.
Defined.

(** X6. What a field absent from the input dict is bound to, by kind of
    annotation.  A str field becomes the string None and a NoneType field
    None; a Dict field with str keys whose values are not a class becomes
    None as well, the input being handed back untouched.  A list, set or
    tuple field fails, None not being iterable, and so do a Dict field
    over a class and a class field that has annotations. *)
Theorem absent_field_by_kind :
  forall (repr : value -> string) (literal_eval : string -> literal_eval_outcome)
         (entries : list (string * value)) (field_name : string),
    lookup field_name entries = None ->
    let bound t := bind_entry repr literal_eval (VDict entries) (field_name, t) in
    let failed cause := raise ValidationError (MFailedToBind field_name cause) in
    bound (TPrim PStr) = Ok (field_name, VStr "None")
    /\ bound (TPrim PNoneType) = Ok (field_name, VNone)
    /\ (forall value_type,
        if_custom_class value_type = false ->
        bound (TDict (TPrim PStr) value_type) = Ok (field_name, VNone))
    /\ (forall value_type,
        if_custom_class value_type = true ->
        bound (TDict (TPrim PStr) value_type)
        = failed (MBuiltin "object has no attribute 'items'" [VNone]))
    /\ (forall item_type,
        bound (TList item_type) = failed (MBuiltin "object is not iterable" [VNone])
        /\ bound (TSet item_type) = failed (MBuiltin "object is not iterable" [VNone]))
    /\ (forall args,
        bound (TTuple args) = failed (MBuiltin "object is not iterable" [VNone]))
    /\ (forall name inner_name inner_type rest,
        bound (TClass name ((inner_name, inner_type) :: rest))
        = failed (MFailedToBind inner_name
                    (MBuiltin "object has no attribute 'get'" [VNone]))).
Proof.
  intros repr literal_eval entries field_name Habsent bound failed.
  unfold bound, failed, bind_entry, bind_entry_with; simpl; rewrite Habsent; simpl.
  repeat split; try reflexivity.
  - intros value_type Hc. unfold bind_dict_with; simpl. now rewrite Hc.
  - intros value_type Hc. unfold bind_dict_with; simpl. now rewrite Hc.
Qed.

Lemma absent_field_by_kind_witness :
  bind_entry Sample.repr Sample.literal_eval (VDict [("other", VInt 1)])
    ("field", TPrim PStr) = Ok ("field", VStr "None")
  /\ bind_entry Sample.repr Sample.literal_eval (VDict [("other", VInt 1)])
       ("field", TList (TPrim PInt))
     = raise ValidationError
         (MFailedToBind "field" (MBuiltin "object is not iterable" [VNone])).
Proof.
  destruct (@absent_field_by_kind Sample.repr Sample.literal_eval
              [("other", VInt 1)] "field" eq_refl)
    as (Hstr & _ & _ & _ & Hlist & _).
  split; [exact Hstr|exact (proj1 (Hlist (TPrim PInt)))].
Defined.

(** ** [bind] *)



(** ** [__bind_literal] *)

Lemma py_eq_same_class v c :
  type_is v (type_of_literal c) = true -> py_eq v c = true -> v = value_of_literal c.
Proof.
  destruct v, c; simpl; try discriminate; intros _ H.
  - reflexivity.
  - now apply Bool.eqb_prop in H; subst.
  - now apply Z.eqb_eq in H; subst.
  - now apply String.eqb_eq in H; subst.
Qed.

Lemma py_eq_value_of_literal c : py_eq (value_of_literal c) c = true.
Proof.
  destruct c; simpl; [reflexivity|apply Bool.eqb_reflx|apply Z.eqb_refl|apply String.eqb_refl].
Qed.

Lemma type_is_value_of_literal c : type_is (value_of_literal c) (type_of_literal c) = true.
Proof. now destruct c. Qed.

Lemma find_of_In {A} (P : A -> bool) l x :
  In x l -> P x = true -> exists y, find P l = Some y.
Proof.
  intros Hin Hp. destruct (find P l) as [y|] eqn:Hf; [now exists y|].
  rewrite (find_none _ _ Hf x Hin) in Hp. discriminate.
Qed.

Lemma bind_literal_find repr literal_eval data args :
  bind_literal repr literal_eval data args =
    match find (literal_matches repr literal_eval data) args with
    | Some c => bind_simple_type repr literal_eval data (type_of_literal c)
    | None => raise ValidationError (MCannotBindLiteral data args)
    end.
Proof.
  unfold bind_literal. rewrite try_literals_find.
  destruct (find _ args) as [c|] eqn:Hf; [|reflexivity].
  apply find_some in Hf as [_ Hm]. unfold literal_matches in Hm.
  destruct (bind_simple_type repr literal_eval data (type_of_literal c));
    [reflexivity|discriminate].
Qed.

(** X8. Whatever [__bind_literal] returns is one of the allowed values,
    class included: never a value merely equal to one, such as 1 for True
    or a string for a number. *)
Theorem bind_literal_returns_allowed_value :
  forall (repr : value -> string) (literal_eval : string -> literal_eval_outcome)
         (data : value) (args : list literal) (v : value),
    bind_literal repr literal_eval data args = Ok v ->
    exists c, In c args /\ v = value_of_literal c.
Proof.
  intros repr literal_eval data args v. rewrite bind_literal_find.
  destruct (find _ args) as [c|] eqn:Hf; [|discriminate].
  apply find_some in Hf as [Hin Hm]. intros Hv. exists c. split; [exact Hin|].
  unfold literal_matches in Hm. rewrite Hv in Hm.
  apply py_eq_same_class; [|exact Hm]. eapply bind_simple_type_class; exact Hv.
Qed.

Lemma bind_literal_returns_allowed_value_witness :
  exists c, In c [LInt 8; LInt 13; LBool false] /\ VInt 13 = value_of_literal c.
Proof.
  apply (@bind_literal_returns_allowed_value Sample.repr Sample.literal_eval
           (VStr "13.9") [LInt 8; LInt 13; LBool false] (VInt 13)).
  vm_compute. reflexivity.
Defined.

(** X9. Every allowed value of a Literal is accepted by [__bind_literal].
    When the allowed values are all of one class it comes back unchanged;
    with values of several classes an earlier candidate of another class
    can take it, as the string 1 takes the number 1. *)
Theorem bind_literal_accepts_allowed_values :
  forall (repr : value -> string) (literal_eval : string -> literal_eval_outcome)
         (args : list literal) (c : literal),
    In c args ->
    is_ok (bind_literal repr literal_eval (value_of_literal c) args) = true
    /\ ((forall c', In c' args -> type_of_literal c' = type_of_literal c) ->
        bind_literal repr literal_eval (value_of_literal c) args
        = Ok (value_of_literal c))
    /\ bind_literal repr literal_eval (VInt 1) [LStr "1"; LInt 1] = Ok (VStr "1").
Proof.
  intros repr literal_eval args c Hin.
  assert (Hself : literal_matches repr literal_eval (value_of_literal c) c = true).
  { unfold literal_matches.
    rewrite bind_simple_type_fast by apply type_is_value_of_literal.
    apply py_eq_value_of_literal. }
  destruct (find_of_In _ _ _ Hin Hself) as [c' Hf].
  pose proof (find_some _ _ Hf) as [Hin' Hm].
  split; [|split].
  - rewrite bind_literal_find, Hf. unfold literal_matches in Hm.
    now destruct (bind_simple_type repr literal_eval (value_of_literal c)
                    (type_of_literal c')).
  - intros Hclass. rewrite bind_literal_find, Hf, (Hclass c' Hin').
    apply bind_simple_type_fast, type_is_value_of_literal.
  - reflexivity.
Qed.

Lemma bind_literal_accepts_allowed_values_witness :
  bind_literal Sample.repr Sample.literal_eval (value_of_literal (LStr "option2"))
    [LStr "option1"; LStr "option2"]
  = Ok (value_of_literal (LStr "option2")).
Proof.
  destruct (@bind_literal_accepts_allowed_values Sample.repr Sample.literal_eval
              [LStr "option1"; LStr "option2"] (LStr "option2")
              (or_intror (or_introl eq_refl))) as (_ & H & _).
  apply H. intros c' [<-|[<-|[]]]; reflexivity.
Defined.

(** ** [__bind_union] *)






(** ** [__bind_set_list] *)

Lemma map_result_id {A} (f : A -> result A) xs :
  (forall x, In x xs -> f x = Ok x) -> map_result f xs = Ok xs.
Proof.
  induction xs as [|x xs IH]; simpl; intros H; [reflexivity|].
  rewrite (H x (or_introl eq_refl)); simpl. rewrite IH; auto.
Qed.

(** X12. The input of a list or set field is whatever can be iterated, not
    only a list: a string bound as a list of str becomes the list of its
    characters, a dict the list of its keys. *)
Theorem bind_set_list_iterates_strings_and_dicts :
  forall (repr : value -> string) (literal_eval : string -> literal_eval_outcome)
         (o : origin),
    (forall s,
        bind_set_list repr literal_eval (VStr s) o (TPrim PStr)
        = Ok (construct o (List.map (fun c => VStr (String c EmptyString))
                                    (list_ascii_of_string s))))
    /\ (forall entries,
        bind_set_list repr literal_eval (VDict entries) o (TPrim PStr)
        = Ok (construct o (List.map (fun entry => VStr (fst entry)) entries))).
Proof.
  intros repr literal_eval o. split.
  - intros s. unfold bind_set_list, bind_set_list_with; simpl.
    rewrite map_result_id; [reflexivity|].
    intros x Hx. apply in_map_iff in Hx as (c & <- & _). reflexivity.
  - intros entries. unfold bind_set_list, bind_set_list_with; simpl.
    rewrite map_result_id; [reflexivity|].
    intros x Hx. apply in_map_iff in Hx as (entry & <- & _). reflexivity.
Qed.

(** * Properties of the loading functions *)

(** ** [ConfigType.of_extension] *)

(** X13. [of_extension] inverts the table of extensions: it returns a format
    exactly for the extensions listed under that format, which no two
    formats share, and raises the ValueError that lists the supported
    extensions for anything else.  The comparison is exact: another case,
    or a name without its dot, is not recognised. *)
Theorem of_extension_table :
  forall (extension : string),
    (forall config_type,
        of_extension extension = Loaded config_type <->
        In extension (config_type_value config_type))
    /\ (of_extension extension
        = LoadValueError
            (MUnsupportedExtension extension [[".yaml"; ".yml"]; [".json"]]) <->
        ~ In extension [".yaml"; ".yml"; ".json"])
    /\ (forall config_type,
        In extension (config_type_value config_type) ->
        lower extension = extension /\ String.get 0 extension = Some "."%char).
Proof.
  intros extension. unfold of_extension, config_types, has_extension; simpl.
  destruct (String.eqb_spec extension ".yaml") as [->|Hyaml];
    [|destruct (String.eqb_spec extension ".yml") as [->|Hyml];
      [|destruct (String.eqb_spec extension ".json") as [->|Hjson]]];
    simpl; (split; [|split]).
  all: try (intros config_type; destruct config_type; simpl; split; intros H;
            first [discriminate | reflexivity | now auto
                  | exfalso; intuition congruence]).
  all: try (split; intros H;
            first [discriminate | reflexivity
                  | exfalso; apply H; simpl; now auto
                  | intros [E|[E|[E|[]]]]; congruence]).
  all: intros config_type H; destruct config_type; simpl in H;
    first [split; reflexivity | exfalso; intuition congruence].
Qed.

(** ** [ConfigBinder.read] *)

(** X14. With a class to bind, [read] ends in one of three ways only.  It
    returns an instance that has exactly the annotated fields; or it
    raises its own ValueError, which happens exactly when the data is
    empty (the parser is then not called) or the parser raises; or it
    raises the ValidationError of the binding, which is not turned into a
    ValueError. *)
Theorem read_outcomes :
  forall (repr : value -> string) (literal_eval : string -> literal_eval_outcome)
         (parse : ConfigType -> string -> result value)
         (config_type : ConfigType) (data : string)
         (name : string) (type_hints : list (string * ty)),
    let outcome :=
      read repr literal_eval parse config_type data (Some (TClass name type_hints)) in
    (forall v, outcome = Loaded v ->
               exists kw_fields,
                 v = VObj name kw_fields /\
                 List.map fst kw_fields = List.map fst type_hints)
    /\ (forall m, outcome = LoadValueError m <->
                  (data = "" /\ m = MDataIsEmpty) \/
                  (data <> "" /\ exists ex, parse config_type data = Raise ex /\
                                           m = MParsingError (exn_message ex)))
    /\ (forall ex, outcome = LoadRaise ex ->
                   exn_class ex = ValidationError /\
                   exists parsed, parse config_type data = Ok parsed /\
                                  bind_class repr literal_eval (TClass name type_hints) parsed
                                  = Raise ex).
Proof.
  intros repr literal_eval parse config_type data name type_hints outcome.
  assert (Hbind : forall parsed,
             bind repr literal_eval parsed (TClass name type_hints)
             = bind_class repr literal_eval (TClass name type_hints) parsed)
    by reflexivity.
  unfold outcome, read. split; [|split].
  - intros v.
    destruct (String.eqb data ""); [discriminate|].
    destruct (parse config_type data) as [parsed|pex]; [|discriminate].
    rewrite Hbind.
    destruct (bind_class repr literal_eval (TClass name type_hints) parsed)
      as [bound|bex] eqn:Hb; [|discriminate].
    intros [= <-]. eapply bind_class_fields; exact Hb.
  - intros m. destruct (String.eqb_spec data "") as [->|Hdata].
    + split.
      * intros [= <-]. now left.
      * intros [[_ ->]|[H _]]; [reflexivity|contradiction].
    + destruct (parse config_type data) as [parsed|pex].
      * rewrite Hbind.
        destruct (bind_class repr literal_eval (TClass name type_hints) parsed);
          (split; [discriminate|]);
          intros [[E _]|[_ (ex & E & _)]]; try contradiction; discriminate.
      * split.
        -- intros [= <-]. right. split; [assumption|]. now exists pex.
        -- intros [[E _]|[_ (ex & E & ->)]]; [contradiction|]. now injection E as <-.
  - intros ex.
    destruct (String.eqb data ""); [discriminate|].
    destruct (parse config_type data) as [parsed|pex]; [|discriminate].
    rewrite Hbind.
    destruct (bind_class repr literal_eval (TClass name type_hints) parsed)
      as [bound|bex] eqn:Hb; [discriminate|].
    intros [= <-]. split; [|now exists parsed].
    rewrite bind_class_TClass in Hb.
    destruct (map_result _ type_hints) as [kw|e] eqn:Hm; simpl in Hb; [discriminate|].
    injection Hb as <-. apply map_result_raise_inv in Hm.
    destruct Hm as (before & [f t] & after & _ & _ & Hx).
    unfold bind_entry, bind_entry_with in Hx.
    destruct (bind_result _ _); [discriminate|]. now injection Hx as <-.
Qed.

(** ** Strings *)

Lemma append_assoc (a b c : string) : ((a ++ b) ++ c = a ++ (b ++ c))%string.
Proof. induction a as [|x a IH]; simpl; [reflexivity|now rewrite IH]. Qed.

Lemma append_empty_r (a : string) : (a ++ "" = a)%string.
Proof. induction a as [|x a IH]; simpl; [reflexivity|now rewrite IH]. Qed.

Lemma length_append (a b : string) :
  String.length (a ++ b) = String.length a + String.length b.
Proof. induction a as [|x a IH]; simpl; [reflexivity|now rewrite IH]. Qed.

Lemma contains_append c (a b : string) :
  contains c (a ++ b) = contains c a || contains c b.
Proof.
  induction a as [|x a IH]; simpl; [reflexivity|].
  now rewrite IH, orb_assoc.
Qed.

Lemma prefix_append (a b : string) : String.prefix a (a ++ b) = true.
Proof.
  induction a as [|x a IH]; simpl; [now destruct b|].
  destruct (Ascii.ascii_dec x x); [exact IH|contradiction].
Qed.

(** ** [str.replace] *)

Lemma replace_from_skip old new (a rest : string) :
  replace_from old new (String.length a) (a ++ rest) = replace_from old new 0 rest.
Proof.
  induction a as [|x a IH]; simpl; [|exact IH].
  destruct rest; reflexivity.
Qed.

(** An occurrence at the head is replaced and passed. *)
Lemma replace_from_head c0 old' new rest :
  (replace_from (String c0 old') new 0 (String c0 old' ++ rest)
   = new ++ replace_from (String c0 old') new 0 rest)%string.
Proof.
  pose proof (prefix_append (String c0 old') rest) as Hp.
  simpl append in *. cbn [replace_from]. rewrite Hp. cbn [String.length].
  now rewrite replace_from_skip.
Qed.

(** Text without the first character of [old] holds no occurrence. *)
Lemma replace_from_before c0 old' new (pre rest : string) :
  contains c0 pre = false ->
  (replace_from (String c0 old') new 0 (pre ++ rest)
   = pre ++ replace_from (String c0 old') new 0 rest)%string.
Proof.
  induction pre as [|x pre IH]; simpl; intros H; [reflexivity|].
  apply orb_false_iff in H as [Hx Hpre].
  destruct (Ascii.ascii_dec c0 x) as [->|_].
  - now rewrite Ascii.eqb_refl in Hx.
  - now rewrite IH.
Qed.

Lemma replace_from_absent c0 old' new (s : string) :
  contains c0 s = false -> replace_from (String c0 old') new 0 s = s.
Proof.
  intros H. rewrite <- (append_empty_r s) at 1.
  rewrite replace_from_before by exact H. simpl. apply append_empty_r.
Qed.

(** ** The pattern *)

Lemma lazy_any_now {R} (k : string -> option R) s r :
  k s = Some r -> lazy_any k s = Some r.
Proof. intros H. destruct s; simpl; now rewrite H. Qed.

Lemma lazy_any_step {R} (k : string -> option R) c s :
  k (String c s) = None ->
  lazy_any k (String c s) = if is_newline c then None else lazy_any k s.
Proof. intros H. simpl. now rewrite H. Qed.

Lemma greedy_plus_outside {R} cls (k : string -> string -> option R) taken s :
  starts_outside cls s = true -> greedy_plus cls k taken s = None.
Proof.
  destruct s as [|c s]; simpl; [reflexivity|].
  now destruct (cls c).
Qed.

(** A greedy group takes the whole run of characters of its class when
    the rest of the pattern matches after it. *)
Lemma greedy_plus_full {R} cls (k : string -> string -> option R) name :
  forall taken tail r,
    name <> EmptyString ->
    all_chars cls name = true ->
    starts_outside cls tail = true ->
    k (taken ++ name)%string tail = Some r ->
    greedy_plus cls k taken (name ++ tail) = Some r.
Proof.
  induction name as [|c name IH]; intros taken tail r Hne Hall Hout Hk;
    [contradiction|].
  simpl in Hall. apply andb_true_iff in Hall as [Hc Hall].
  simpl. rewrite Hc.
  destruct name as [|c' name'].
  - simpl. rewrite (greedy_plus_outside _ _ _ _ Hout). exact Hk.
  - rewrite (IH (taken ++ String c EmptyString)%string tail r); auto.
    + discriminate.
    + now rewrite append_assoc.
Qed.

Lemma name_char_no_colon name :
  all_chars name_char name = true -> contains ":" name = false.
Proof.
  induction name as [|c name IH]; cbn [all_chars contains]; [reflexivity|].
  intros H. apply andb_true_iff in H as [Hc Hall]. rewrite (IH Hall).
  unfold name_char in Hc. apply negb_true_iff in Hc.
  apply orb_false_iff in Hc as [Hc _]. apply orb_false_iff in Hc as [_ Hc].
  rewrite Ascii.eqb_sym. now rewrite Hc.
Qed.

(** The pattern at the head of a plain placeholder. *)
Lemma regex_match_plain name post :
  name <> EmptyString ->
  all_chars name_char name = true ->
  regex_match ENV_VARIABLE_REGEX [] ("${" ++ name ++ "}" ++ post)
  = Some ([name; EmptyString; EmptyString], post).
Proof.
  intros Hne Hall. unfold ENV_VARIABLE_REGEX.
  cbn [regex_match]. apply lazy_any_now.
  cbn [append regex_match Ascii.eqb Bool.eqb].
  apply greedy_plus_full; auto.
  cbn [append regex_match Ascii.eqb Bool.eqb greedy_plus default_char negb app].
  now destruct post.
Qed.

(** The pattern at the head of a placeholder with a default. *)
Lemma regex_match_default name default post :
  name <> EmptyString ->
  all_chars name_char name = true ->
  all_chars default_char default = true ->
  regex_match ENV_VARIABLE_REGEX [] ("${" ++ name ++ ":" ++ default ++ "}" ++ post)
  = Some ([name; ":"; default], post).
Proof.
  intros Hne Hall Hdef. unfold ENV_VARIABLE_REGEX.
  cbn [regex_match]. apply lazy_any_now.
  cbn [append regex_match Ascii.eqb Bool.eqb].
  apply greedy_plus_full; auto.
  cbn [append regex_match Ascii.eqb Bool.eqb app].
  destruct default as [|d default].
  - cbn [append greedy_plus default_char Ascii.eqb Bool.eqb negb regex_match].
    now destruct post.
  - rewrite (@greedy_plus_full _ default_char _ (String d default)
               EmptyString ("}" ++ post)%string
               ([name; ":"; String d default], post)); auto.
    + discriminate.
    + cbn [append regex_match Ascii.eqb Bool.eqb app]. now destruct post.
Qed.

(** Before the first dollar sign the pattern finds nothing. *)
Lemma regex_match_before pre s :
  contains "$" pre = false ->
  regex_match ENV_VARIABLE_REGEX [] (pre ++ s) =
    if contains "010" pre then None else regex_match ENV_VARIABLE_REGEX [] s.
Proof.
  unfold ENV_VARIABLE_REGEX. cbn [regex_match].
  induction pre as [|c pre IH]; intros H; [reflexivity|].
  cbn [contains] in H. apply orb_false_iff in H as [Hc Hpre].
  cbn [append]. rewrite lazy_any_step.
  - cbn [contains]. unfold is_newline. rewrite (Ascii.eqb_sym c).
    destruct (Ascii.eqb "010" c); [reflexivity|]. simpl. now apply IH.
  - cbn [regex_match]. now rewrite Hc.
Qed.

Lemma regex_match_no_dollar s :
  contains "$" s = false -> regex_match ENV_VARIABLE_REGEX [] s = None.
Proof.
  intros H. rewrite <- (append_empty_r s), regex_match_before by exact H.
  now destruct (contains "010" s).
Qed.

Lemma findall_from_skip (a rest : string) :
  findall_from (String.length a) (a ++ rest) = findall_from 0 rest.
Proof.
  induction a as [|x a IH]; simpl; [|exact IH].
  destruct rest; reflexivity.
Qed.

Lemma findall_no_dollar s : contains "$" s = false -> findall s = [].
Proof.
  unfold findall. induction s as [|c s IH]; intros H.
  - reflexivity.
  - cbn [findall_from]. rewrite (regex_match_no_dollar _ H).
    cbn [contains] in H. apply orb_false_iff in H as [_ H]. now apply IH.
Qed.

(** One placeholder between two texts without dollar sign is found once. *)
Lemma findall_one pre ph post groups :
  contains "$" pre = false ->
  contains "$" post = false ->
  ph <> EmptyString ->
  regex_match ENV_VARIABLE_REGEX [] (ph ++ post) = Some (groups, post) ->
  findall (pre ++ ph ++ post) = [groups].
Proof.
  intros Hpre Hpost Hne Hm. unfold findall.
  assert (Hhere : forall x a,
    findall_from (String.length (String x (a ++ post)) - String.length post - 1)
                 (a ++ post) = []).
  { intros x a. cbn [String.length]. rewrite length_append.
    replace (S (String.length a + String.length post) - String.length post - 1)
      with (String.length a) by lia.
    rewrite findall_from_skip. now apply findall_no_dollar. }
  induction pre as [|c pre IH].
  - cbn [append]. destruct ph as [|x ph]; [contradiction|].
    cbn [findall_from append]. cbn [append] in Hm. rewrite Hm.
    now rewrite (Hhere x ph).
  - cbn [contains] in Hpre. apply orb_false_iff in Hpre as [Hc Hpre].
    specialize (IH Hpre).
    pose proof (@regex_match_before (String c pre) (ph ++ post)) as Hb.
    cbn [contains] in Hb. rewrite Hc, Hpre in Hb. specialize (Hb eq_refl).
    cbn [append] in *. cbn [findall_from]. rewrite Hb, Hm.
    destruct (Ascii.eqb "010" c || contains "010" pre).
    + exact IH.
    + rewrite <- append_assoc. now rewrite (Hhere c (pre ++ ph)%string).
Qed.

(** ** [__constructor] *)

Lemma replace_placeholder variable separator default_value value pre post :
  contains "$" pre = false ->
  contains "$" post = false ->
  (replace (placeholder variable separator default_value) value
           (pre ++ placeholder variable separator default_value ++ post)
   = pre ++ value ++ post)%string.
Proof.
  intros Hpre Hpost. unfold replace, placeholder. cbn [append].
  rewrite replace_from_before by exact Hpre.
  change (String "$" (String "{" ?a) ++ post)%string
    with (String "$" (String "{" (a ++ post)))%string.
  match goal with
  | |- context [replace_from ?old value 0 (String "$" (String "{" (?a ++ post)))] =>
      change (String "$" (String "{" (a ++ post)))%string with (old ++ post)%string
  end.
  rewrite replace_from_head, replace_from_absent by exact Hpost.
  reflexivity.
Qed.

(** X15. A scalar without a dollar sign holds no placeholder: [__constructor]
    returns it as it is, whatever the environment. *)
Theorem constructor_without_dollar :
  forall (environ : string -> option string) (to_resolve : string),
    contains "$" to_resolve = false ->
    constructor environ to_resolve = Loaded to_resolve.
Proof.
  intros environ to_resolve H. unfold constructor.
  now rewrite findall_no_dollar.
Qed.

Lemma constructor_without_dollar_witness :
  constructor (fun _ => None) "example string" = Loaded "example string".
Proof.
  apply (constructor_without_dollar (fun _ => None) "example string"). reflexivity.
Defined.

(** X16. A placeholder without default, alone between two texts that hold no
    dollar sign.  It is replaced by the value of the variable, the texts
    kept.  When the variable is unset, or set to the empty string, the
    ValueError naming the variable is raised only if the scalar holds no
    colon anywhere; with a colon in it, the placeholder is replaced by
    the empty string. *)
Theorem constructor_placeholder :
  forall (environ : string -> option string) (pre name post : string),
    contains "$" pre = false ->
    contains "$" post = false ->
    name <> EmptyString ->
    all_chars name_char name = true ->
    constructor environ (pre ++ "${" ++ name ++ "}" ++ post) =
      if String.eqb (environ_get environ name "") ""
         && negb (contains ":" pre || contains ":" post)
      then LoadValueError (MUnableToResolve name)
      else Loaded (pre ++ environ_get environ name "" ++ post)%string.
Proof.
  intros environ pre name post Hpre Hpost Hne Hall.
  assert (Hph : ("${" ++ name ++ "}" ++ post
                 = placeholder name "" "" ++ post)%string).
  { unfold placeholder. cbn [append]. now rewrite append_assoc. }
  unfold constructor. rewrite Hph.
  rewrite (@findall_one pre (placeholder name "" "") post [name; ""; ""]);
    auto; try discriminate.
  2:{ rewrite <- Hph. now apply regex_match_plain. }
  cbn [resolve nth].
  replace (contains ":" (pre ++ placeholder name "" "" ++ post))
    with (contains ":" pre || contains ":" post).
  2:{ rewrite <- Hph, contains_append. cbn [append contains].
      rewrite contains_append, (name_char_no_colon _ Hall). reflexivity. }
  destruct (String.eqb (environ_get environ name "") "" && _); [reflexivity|].
  now rewrite replace_placeholder.
Qed.

Lemma constructor_placeholder_witness :
  constructor (fun variable => if String.eqb variable "HOME" then Some "/root" else None)
    ("dir=" ++ "${" ++ "HOME" ++ "}" ++ "/conf")
  = Loaded "dir=/root/conf"
  /\ constructor (fun _ => None) ("" ++ "${" ++ "HOST" ++ "}" ++ "")
     = LoadValueError (MUnableToResolve "HOST")
  /\ constructor (fun _ => None) ("http://" ++ "${" ++ "HOST" ++ "}" ++ "")
     = Loaded "http://".
Proof.
  split; [|split].
  - apply (@constructor_placeholder
             (fun variable => if String.eqb variable "HOME" then Some "/root" else None)
             "dir=" "HOME" "/conf"); try reflexivity; discriminate.
  - apply (@constructor_placeholder (fun _ => None) "" "HOST" "");
      try reflexivity; discriminate.
  - apply (@constructor_placeholder (fun _ => None) "http://" "HOST" "");
      try reflexivity; discriminate.
Defined.

(** X17. A placeholder with a default, alone between two texts that hold no
    dollar sign, never fails: it is replaced by the value of the variable
    when the variable is set, be it to the empty string, and by the
    default when it is not. *)
Theorem constructor_placeholder_with_default :
  forall (environ : string -> option string) (pre name default post : string),
    contains "$" pre = false ->
    contains "$" post = false ->
    name <> EmptyString ->
    all_chars name_char name = true ->
    all_chars default_char default = true ->
    constructor environ (pre ++ "${" ++ name ++ ":" ++ default ++ "}" ++ post) =
      Loaded (pre ++ environ_get environ name default ++ post)%string.
Proof.
  intros environ pre name default post Hpre Hpost Hne Hall Hdef.
  assert (Hph : ("${" ++ name ++ ":" ++ default ++ "}" ++ post
                 = placeholder name ":" default ++ post)%string).
  { unfold placeholder. cbn [append]. rewrite !append_assoc. cbn [append].
    now rewrite append_assoc. }
  unfold constructor. rewrite Hph.
  rewrite (@findall_one pre (placeholder name ":" default) post [name; ":"; default]);
    auto; try discriminate.
  2:{ rewrite <- Hph. now apply regex_match_default. }
  cbn [resolve nth].
  replace (contains ":" (pre ++ placeholder name ":" default ++ post)) with true.
  2:{ rewrite <- Hph, contains_append. cbn [append contains].
      rewrite contains_append. cbn [append contains Ascii.eqb Bool.eqb].
      now rewrite !orb_true_r. }
  rewrite andb_false_r. now rewrite replace_placeholder.
Qed.

Lemma constructor_placeholder_with_default_witness :
  constructor (fun _ => None) ("port: " ++ "${" ++ "PORT" ++ ":" ++ "8080" ++ "}" ++ "")
  = Loaded "port: 8080"
  /\ constructor (fun variable => if String.eqb variable "PORT" then Some "" else None)
       ("" ++ "${" ++ "PORT" ++ ":" ++ "8080" ++ "}" ++ "")
     = Loaded "".
Proof.
  split.
  - apply (@constructor_placeholder_with_default (fun _ => None) "port: " "PORT" "8080" "");
      try reflexivity; discriminate.
  - apply (@constructor_placeholder_with_default
             (fun variable => if String.eqb variable "PORT" then Some "" else None)
             "" "PORT" "8080" ""); try reflexivity; discriminate.
Defined.

(** ** Integers through [float]

    [__bind_simple_type] turns its input into an int by [int(float(...))]. *)

Section IntegerText.
Local Open Scope Z_scope.

Lemma digits2_pos_size p : digits2_pos p = Pos.size p.
Proof. induction p; simpl; congruence. Qed.

Lemma digits2_pos_iter_xO p k :
  digits2_pos (Pos.iter xO p k) = (digits2_pos p + k)%positive.
Proof.
  induction k using Pos.peano_ind.
  - simpl. lia.
  - rewrite Pos.iter_succ. simpl. rewrite IHk. lia.
Qed.

Lemma Zpos_iter_xO p k : Zpos (Pos.iter xO p k) = Zpos p * 2 ^ Zpos k.
Proof.
  induction k using Pos.peano_ind.
  - simpl. lia.
  - rewrite Pos.iter_succ, Pos2Z.inj_xO, IHk, Pos2Z.inj_succ, Z.pow_succ_r by lia. lia.
Qed.

Lemma digits2_pos_bound p : Zpos p < 2 ^ 53 -> Zpos (digits2_pos p) <= 53.
Proof.
  intros H. rewrite digits2_pos_size.
  destruct (Z_le_gt_dec (Zpos (Pos.size p)) 53) as [L|G]; [exact L|exfalso].
  pose proof (Pos.size_le p) as Hle.
  assert (2 ^ 54 <= 2 ^ Zpos (Pos.size p)) by (apply Z.pow_le_mono_r; lia).
  assert (Zpos (2 ^ Pos.size p) = 2 ^ Zpos (Pos.size p)) by (now rewrite Pos2Z.inj_pow).
  assert (Zpos (2 ^ Pos.size p) <= Zpos p~0) by (apply Pos2Z.pos_le_pos; exact Hle).
  rewrite Pos2Z.inj_xO in *. change (2^54) with (2 * 2^53) in *. lia.
Qed.

Lemma binary_round_aux_exact (s : bool) (m : positive) (e : Z) :
  Zpos (digits2_pos m) = 53 -> -1074 <= e <= 971 ->
  binary_round_aux 53 1024 s (Zpos m) e loc_Exact = S754_finite s m e.
Proof.
  intros Hm He. unfold binary_round_aux, shr_fexp.
  assert (Hf : fexp 53 1024 (Zdigits2 (Zpos m) + e) - e = 0).
  { unfold Zdigits2. rewrite Hm. unfold fexp, emin. lia. }
  rewrite Hf. cbn [shr shr_record_of_loc shr_m loc_of_shr_record round_nearest_even].
  rewrite Hf. cbn [shr shr_record_of_loc shr_m].
  assert ((e <=? 1024 - 53) = true) as -> by (apply Z.leb_le; lia).
  reflexivity.
Qed.

(** An integer below 2^53 is a binary64 number: rounding leaves it as it
    is, and truncation gives it back. *)
Lemma binary_round_small (s : bool) (p : positive) :
  Zpos p < 2 ^ 53 ->
  exists m e,
    binary_round PyFloat.prec PyFloat.emax s p 0 = S754_finite s m e /\
    PyFloat.trunc (S754_finite s m e)
    = PyFloat.Truncated (if s then Zneg p else Zpos p).
Proof.
  intros Hp. pose proof (@digits2_pos_bound p Hp) as Hd.
  unfold binary_round, PyFloat.prec, PyFloat.emax.
  rewrite Z.add_0_r.
  assert (Hfexp : fexp 53 1024 (Zpos (digits2_pos p)) = Zpos (digits2_pos p) - 53).
  { unfold fexp, emin. lia. }
  rewrite Hfexp. unfold shl_align. rewrite Z.sub_0_r.
  destruct (Zpos (digits2_pos p) - 53) as [|q|q] eqn:Hq; [|lia|].
  - exists p, 0. rewrite binary_round_aux_exact by lia. split; [reflexivity|].
    unfold PyFloat.trunc. cbn. now destruct s.
  - exists (Pos.iter xO p q), (Zneg q). rewrite binary_round_aux_exact.
    + split; [reflexivity|]. unfold PyFloat.trunc.
      assert ((0 <=? Zneg q) = false) as -> by (apply Z.leb_gt; lia).
      change (- Zneg q) with (Zpos q).
      rewrite Zpos_iter_xO, Z.shiftr_div_pow2, Z.div_mul by lia.
      now destruct s.
    + rewrite digits2_pos_iter_xO. lia.
    + lia.
Qed.

Lemma uint_value_pos d : forall acc, uint_value d (Zpos acc) = Zpos (Pos.of_uint_acc d acc).
Proof.
  induction d; intros acc; cbn [uint_value Pos.of_uint_acc]; try reflexivity;
    rewrite <- IHd; f_equal; lia.
Qed.

Lemma uint_value_0 d : uint_value d 0 = Z.of_N (Pos.of_uint d).
Proof.
  induction d; cbn [uint_value Pos.of_uint]; try reflexivity;
    rewrite Z.mul_0_r, Z.add_0_l; try exact IHd;
    cbn [Z.of_N]; apply uint_value_pos.
Qed.

Lemma digits_loop_digits d : forall acc count,
  exists n, PyFloat.digits_loop acc count (digits_of d) = (uint_value d acc, n, []).
Proof.
  unfold digits_of.
  induction d; intros acc count; simpl;
    try (now eexists);
    match goal with
    | |- context [PyFloat.digits_loop ?a ?c (list_ascii_of_string _)] =>
        destruct (IHd a c) as [n Hn]; exists n; rewrite Hn; reflexivity
    end.
Qed.

Lemma digit_char c :
  PyFloat.is_digit c = true ->
  PyFloat.is_space c = false /\ Ascii.eqb c "-" = false /\ Ascii.eqb c "+" = false /\
  Ascii.eqb (lower_ascii c) "i" = false /\ Ascii.eqb (lower_ascii c) "n" = false.
Proof.
  revert c.
  assert (H : forallb (fun c =>
            implb (PyFloat.is_digit c)
              (negb (PyFloat.is_space c) && negb (Ascii.eqb c "-") && negb (Ascii.eqb c "+")
               && negb (Ascii.eqb (lower_ascii c) "i")
               && negb (Ascii.eqb (lower_ascii c) "n"))) all_ascii = true)
    by (vm_compute; reflexivity).
  intros c Hc. pose proof (all_ascii_complete _ H c) as E. cbv beta in E.
  rewrite Hc in E. simpl in E.
  repeat (apply andb_true_iff in E; destruct E as [E ?]).
  repeat split; now apply negb_true_iff.
Qed.

Lemma digits_of_digits d : Forall (fun c => PyFloat.is_digit c = true) (digits_of d).
Proof. unfold digits_of. induction d; simpl; constructor; auto. Qed.

Lemma lstrip_no_space cs :
  Forall (fun c => PyFloat.is_space c = false) cs -> PyFloat.lstrip cs = cs.
Proof. intros H. destruct H as [|c cs Hc _]; simpl; [reflexivity|now rewrite Hc]. Qed.

Lemma strip_no_space cs :
  Forall (fun c => PyFloat.is_space c = false) cs -> PyFloat.strip cs = cs.
Proof.
  intros H. unfold PyFloat.strip.
  rewrite (@lstrip_no_space cs) by exact H.
  rewrite lstrip_no_space by (now apply Forall_rev).
  apply rev_involutive.
Qed.

Lemma decimal_digits neg c cs v n :
  PyFloat.is_digit c = true ->
  PyFloat.digits_loop 0 0 (c :: cs) = (v, n, []) ->
  PyFloat.decimal neg (c :: cs) = Some (PyFloat.of_decimal neg v 0).
Proof.
  intros Hc Hl. unfold PyFloat.decimal, PyFloat.digitpart. rewrite Hc, Hl.
  reflexivity.
Qed.

Lemma not_a_word c cs :
  PyFloat.is_digit c = true ->
  let word := string_of_list_ascii (List.map lower_ascii (c :: cs)) in
  (String.eqb word "inf" || String.eqb word "infinity" = false)%bool
  /\ String.eqb word "nan" = false.
Proof.
  intros Hc. destruct (@digit_char c Hc) as (_ & _ & _ & Hi & Hn).
  cbn [List.map string_of_list_ascii String.eqb]. now rewrite Hi, Hn.
Qed.

Lemma of_string_digits c cs v n :
  Forall (fun c => PyFloat.is_digit c = true) (c :: cs) ->
  PyFloat.digits_loop 0 0 (c :: cs) = (v, n, []) ->
  PyFloat.of_string (string_of_list_ascii (c :: cs)) = Some (PyFloat.of_decimal false v 0)
  /\ PyFloat.of_string (String "-" (string_of_list_ascii (c :: cs)))
     = Some (PyFloat.of_decimal true v 0).
Proof.
  intros Hd Hl.
  assert (Hs : Forall (fun c => PyFloat.is_space c = false) (c :: cs)).
  { eapply Forall_impl; [|exact Hd]. intros a Ha. apply (@digit_char a Ha). }
  assert (Hc : PyFloat.is_digit c = true) by (now inversion Hd).
  destruct (@digit_char c Hc) as (_ & Hminus & Hplus & _ & _).
  destruct (@not_a_word c cs Hc) as [Hw1 Hw2].
  split.
  - unfold PyFloat.of_string.
    rewrite list_ascii_of_string_of_list_ascii.
    rewrite strip_no_space by exact Hs.
    cbn [PyFloat.sign]. rewrite Hminus, Hplus.
    cbv zeta in Hw1, Hw2. rewrite Hw1, Hw2.
    eapply decimal_digits; eauto.
  - unfold PyFloat.of_string.
    cbn [list_ascii_of_string].
    rewrite list_ascii_of_string_of_list_ascii.
    rewrite strip_no_space.
    + cbn [PyFloat.sign Ascii.eqb Bool.eqb].
      cbv zeta in Hw1, Hw2. rewrite Hw1, Hw2.
      eapply decimal_digits; eauto.
    + constructor; [reflexivity|exact Hs].
Qed.

Lemma of_decimal_integer neg p :
  PyFloat.of_decimal neg (Zpos p) 0
  = binary_round PyFloat.prec PyFloat.emax neg p 0.
Proof.
  unfold PyFloat.of_decimal. cbn [Z.leb Z.compare].
  change (10 ^ 0) with 1. rewrite Z.mul_1_r. now destruct neg.
Qed.

Lemma string_of_uint_pos p :
  NilZero.string_of_uint (Pos.to_uint p) = NilEmpty.string_of_uint (Pos.to_uint p).
Proof.
  pose proof (DecimalPos.Unsigned.to_uint_nonnil p).
  destruct (Pos.to_uint p); try reflexivity. contradiction.
Qed.

Lemma parse_pos_to_uint p :
  PyFloat.of_string (NilEmpty.string_of_uint (Pos.to_uint p))
  = Some (PyFloat.of_decimal false (Zpos p) 0)
  /\ PyFloat.of_string (String "-" (NilEmpty.string_of_uint (Pos.to_uint p)))
     = Some (PyFloat.of_decimal true (Zpos p) 0).
Proof.
  set (d := Pos.to_uint p).
  destruct (digits_loop_digits d 0 0) as [n Hn].
  assert (Hv : uint_value d 0 = Zpos p).
  { rewrite uint_value_0. unfold d. now rewrite DecimalPos.Unsigned.of_to. }
  rewrite Hv in Hn.
  pose proof (digits_of_digits d) as Hd.
  assert (Hs : string_of_list_ascii (digits_of d) = NilEmpty.string_of_uint d)
    by apply string_of_list_ascii_of_string.
  destruct (digits_of d) as [|c cs] eqn:Hc.
  - exfalso. apply (DecimalPos.Unsigned.to_uint_nonnil p). fold d.
    destruct d; try discriminate; reflexivity.
  - rewrite <- Hs. eapply of_string_digits; eauto.
Qed.

(** X18. An integer of less than 2^53 in absolute value, written in decimal,
    binds against int to itself: [float] reads it without rounding and
    [int] gives it back.  So does the integer itself bound against float
    and the result against int. *)
Theorem bind_int_decimal_text :
  forall (repr : value -> string) (literal_eval : string -> literal_eval_outcome) (z : Z),
    Z.abs z < 2 ^ 53 ->
    bind_simple_type repr literal_eval (VStr (str_of_int z)) PInt = Ok (VInt z)
    /\ exists f,
         bind_simple_type repr literal_eval (VInt z) PFloat = Ok (VFloat f) /\
         bind_simple_type repr literal_eval (VFloat f) PInt = Ok (VInt z).
Proof.
  intros repr literal_eval z Hz.
  unfold bind_simple_type. cbn [type_is isinstance_bool coerce py_float].
  destruct z as [|p|p].
  - split; [vm_compute; reflexivity|].
    exists (S754_zero false). split; reflexivity.
  - destruct (@binary_round_small false p Hz) as (m & e & Hr & Ht).
    split.
    + unfold str_of_int. cbn [Z.to_int NilZero.string_of_int].
      rewrite string_of_uint_pos, (proj1 (parse_pos_to_uint p)), of_decimal_integer.
      cbn [bind_result]. unfold py_int. rewrite Hr, Ht. reflexivity.
    + exists (S754_finite false m e).
      unfold PyFloat.of_int, binary_normalize. rewrite Hr.
      cbn [bind_result]. unfold py_int. rewrite Ht. split; reflexivity.
  - destruct (@binary_round_small true p Hz) as (m & e & Hr & Ht).
    split.
    + unfold str_of_int. cbn [Z.to_int NilZero.string_of_int].
      rewrite string_of_uint_pos, (proj2 (parse_pos_to_uint p)), of_decimal_integer.
      cbn [bind_result]. unfold py_int. rewrite Hr, Ht. reflexivity.
    + exists (S754_finite true m e).
      unfold PyFloat.of_int, binary_normalize. rewrite Hr.
      cbn [bind_result]. unfold py_int. rewrite Ht. split; reflexivity.
Qed.

Lemma bind_int_decimal_text_witness :
  bind_simple_type Sample.repr Sample.literal_eval (VStr (str_of_int (-23))) PInt
  = Ok (VInt (-23))
  /\ exists f,
       bind_simple_type Sample.repr Sample.literal_eval (VInt (-23)) PFloat
       = Ok (VFloat f) /\
       bind_simple_type Sample.repr Sample.literal_eval (VFloat f) PInt = Ok (VInt (-23)).
Proof.
  apply (@bind_int_decimal_text Sample.repr Sample.literal_eval (-23)).
  reflexivity.
Defined.

End IntegerText.

(** ** Booleans *)

(** X19. A boolean is turned into its string before any conversion, so it is
    never taken for a number: against int and against float it fails, the
    ValidationError carrying the string and not the boolean; against str
    it gives True or False as a string; against bool it is returned as it
    is. *)
Theorem bind_bool_input :
  forall (repr : value -> string) (literal_eval : string -> literal_eval_outcome)
         (b : bool),
    bind_simple_type repr literal_eval (VBool b) PBool = Ok (VBool b)
    /\ bind_simple_type repr literal_eval (VBool b) PStr = Ok (VStr (str_of_bool b))
    /\ bind_simple_type repr literal_eval (VBool b) PInt
       = raise ValidationError (MCannotBindValue (VStr (str_of_bool b)) PInt)
    /\ bind_simple_type repr literal_eval (VBool b) PFloat
       = raise ValidationError (MCannotBindValue (VStr (str_of_bool b)) PFloat)
    /\ (forall alternatives,
        declared PBool alternatives = false ->
        declared PStr alternatives = false ->
        (forall ft, In ft alternatives -> in_primitive_types ft = true) ->
        literal_eval (str_of_bool b) <> LiteralNone ->
        is_ok (bind_union repr literal_eval (VBool b) alternatives) = false).
Proof.
  intros repr literal_eval b.
  assert (Hint : bind_simple_type repr literal_eval (VBool b) PInt
                 = raise ValidationError (MCannotBindValue (VStr (str_of_bool b)) PInt))
    by (destruct b; reflexivity).
  assert (Hfloat : bind_simple_type repr literal_eval (VBool b) PFloat
                   = raise ValidationError (MCannotBindValue (VStr (str_of_bool b)) PFloat))
    by (destruct b; reflexivity).
  repeat split; try (destruct b; reflexivity); try assumption.
  intros alternatives Hbool Hstr Hprim Hnone.
  rewrite bind_union_find.
  assert (Hc : find (binds_as_class repr literal_eval (VBool b)) alternatives = None).
  { apply find_existsb_false. apply not_true_is_false. intros H.
    apply existsb_exists in H as (ft & Hin & Hb).
    unfold binds_as_class in Hb. now rewrite (Hprim ft Hin) in Hb. }
  rewrite Hc.
  assert (Hp : find (binds_as_primitive repr literal_eval (VBool b) alternatives)
                    primitive_types = None).
  { unfold primitive_types, binds_as_primitive. cbn [find].
    rewrite Hbool, Hstr, Hint, Hfloat. cbn [andb is_ok raise].
    rewrite !andb_false_r.
    destruct (declared PNoneType alternatives); [|reflexivity].
    unfold bind_simple_type. cbn [type_is isinstance_bool py_str coerce andb].
    destruct (literal_eval (str_of_bool b)) as [| |e]; try contradiction;
      cbn [raise exn_class is_type_or_value_error is_ok]; try reflexivity.
    destruct (is_type_or_value_error (exn_class e)); reflexivity. }
  rewrite Hp, str_in_declared, Hstr. reflexivity.
Qed.

Lemma bind_bool_input_witness :
  is_ok (bind_union Sample.repr Sample.literal_eval (VBool true)
           [TPrim PInt; TPrim PFloat; TPrim PNoneType]) = false.
Proof.
  destruct (bind_bool_input Sample.repr Sample.literal_eval true) as (_ & _ & _ & _ & H).
  apply (H [TPrim PInt; TPrim PFloat; TPrim PNoneType]).
  - reflexivity.
  - reflexivity.
  - intros ft [<-|[<-|[<-|[]]]]; reflexivity.
  - discriminate.
Defined.
